(** * The column-sum range validation of the test suite

    A shallow embedding of
    [ingestion/src/metadata/test_suite/validations/column/column_values_sum_to_be_between.py]
    and the properties of its single function,
    [column_values_sum_to_be_between].

    The Python function is effectful in three ways, each modelled
    explicitly: it raises and catches exceptions (a result type with a
    bind), it calls the query runner (the runner's session is threaded
    through), and it logs (an event trace, which also records the queries
    that were issued). *)

From Stdlib Require Import ZArith String Ascii List Lia Floats.SpecFloat.
From stdpp Require Import base option list strings gmap pretty.

Local Open Scope string_scope.
Local Open Scope Z_scope.

(** ** Python strings

    A [str] is modelled by a [string]: the bytes of its UTF-8 encoding.
    The two characters the source looks for, [:] and [>], are ASCII, and
    UTF-8 never uses an ASCII byte inside the encoding of another
    character, so splitting and replacing on bytes agrees with splitting
    and replacing on code points. *)
Module PyStr.

(** [sep.join(parts)]. *)
Definition join (sep : string) (parts : list string) : string :=
  String.concat sep parts.

(** [s] has an occurrence of [sep]. *)
Definition occurs (sep s : string) : Prop :=
  exists before after, s = before +:+ sep +:+ after.

(** Puts a character in front of the first segment. *)
Definition push_front (ch : ascii) (segs : list string) : list string :=
  match segs with
  | seg :: rest => String ch seg :: rest
  | [] => [String ch EmptyString]
  end.

(** [s.split("::")]: the string is scanned from the left, every
    occurrence of the separator found that way ends a segment and the
    scan goes on behind it (so [":::"] gives [["", ":"]]). *)
Fixpoint split_colons (s : string) : list string :=
  match s with
  | EmptyString => [EmptyString]
  | String ch rest =>
      match rest with
      | String ch' rest' =>
          if Ascii.eqb ch ":" && Ascii.eqb ch' ":"
          then EmptyString :: split_colons rest'
          else push_front ch (split_colons rest)
      | EmptyString => push_front ch (split_colons rest)
      end
  end.

(** [s.replace(ch, "")] for a one-character pattern: every occurrence
    goes. *)
Fixpoint remove_char (ch : ascii) (s : string) : string :=
  match s with
  | EmptyString => EmptyString
  | String a rest =>
      if Ascii.eqb a ch then remove_char ch rest
      else String a (remove_char ch rest)
  end.

(** [ch] occurs in [s]. *)
Fixpoint mem_char (ch : ascii) (s : string) : bool :=
  match s with
  | EmptyString => false
  | String a rest => Ascii.eqb a ch || mem_char ch rest
  end.

(** [s.rstrip(ch)]: only the occurrences at the end go.  The source
    does not call it; it is what "trailing characters stripped" means,
    for comparison with [remove_char]. *)
Fixpoint rstrip_char (ch : ascii) (s : string) : string :=
  match s with
  | EmptyString => EmptyString
  | String a rest =>
      match rstrip_char ch rest with
      | EmptyString => if Ascii.eqb a ch then EmptyString else String a EmptyString
      | kept => String a kept
      end
  end.

(** [segs[-1]] for the list a split returns (it is never empty). *)
Definition last_segment (segs : list string) : string :=
  List.last segs EmptyString.

End PyStr.

(** ** Python values, numbers and exceptions *)
Module Py.

(** A [float] is an IEEE 754 binary64 number: a [spec_float] that is
    valid for precision 53 and maximal exponent 1024. *)
Definition prec : Z := 53.
Definition emax : Z := 1024.

(** The values a result row or the validator's locals hold. Other
    DB-API types (Decimal, ...) are not modelled. *)
Inductive PyVal : Type :=
| PyNone
| PyInt (z : Z)
| PyFloat (x : spec_float)
| PyStr (s : string).

(** The classes of the exceptions that occur. Every one of them is a
    subclass of [Exception]; [RunnerError] stands for the class of
    whatever the query runner raised. Exceptions outside [Exception]
    (KeyboardInterrupt, SystemExit) are not modelled. *)
Inductive ExcClass : Type :=
| ValueError
| TypeError
| StopIteration
| RunnerError.

(** An exception object: its class and [str(err)]. *)
Record PyExc : Type := mkExc { exc_class : ExcClass; exc_str : string }.

(** The result of an expression that may raise. *)
Inductive Res (E A : Type) : Type :=
| Ok (a : A)
| Raise (e : E).
Arguments Ok {E A} a.
Arguments Raise {E A} e.

Definition bind {E A B} (m : Res E A) (k : A -> Res E B) : Res E B :=
  match m with
  | Ok a => k a
  | Raise e => Raise e
  end.

(** The number a float or an integer stands for: a dyadic rational
    [m * 2^e], an infinity, or not a number. Both signed zeros are
    zero. *)
Inductive Extended : Type :=
| NaN
| Inf (neg : bool)
| Dyadic (m e : Z).

Definition float_value (x : spec_float) : Extended :=
  match x with
  | S754_nan => NaN
  | S754_infinity neg => Inf neg
  | S754_zero _ => Dyadic 0 0
  | S754_finite neg m e => Dyadic (if neg then Z.neg m else Z.pos m) e
  end.

Definition int_value (z : Z) : Extended := Dyadic z 0.

(** The ordering of two numbers, [None] when one of them is a NaN.
    Python orders floats as IEEE 754 does, and an [int] and a [float]
    by their exact values, without rounding the integer. *)
Definition num_cmp (a b : Extended) : option comparison :=
  match a, b with
  | NaN, _ | _, NaN => None
  | Inf na, Inf nb =>
      Some (if na then (if nb then Eq else Lt) else (if nb then Gt else Eq))
  | Inf na, Dyadic _ _ => Some (if na then Lt else Gt)
  | Dyadic _ _, Inf nb => Some (if nb then Gt else Lt)
  | Dyadic ma ea, Dyadic mb eb =>
      let e := Z.min ea eb in
      Some (ma * 2 ^ (ea - e) ?= mb * 2 ^ (eb - e))
  end.

(** The number a value is, if it is one. *)
Definition number (v : PyVal) : option Extended :=
  match v with
  | PyInt z => Some (int_value z)
  | PyFloat x => Some (float_value x)
  | PyNone | PyStr _ => None
  end.

(** The ordering of a float [x] and a value, float on the left. An
    ordering comparison of a float with [None] or a [str] raises
    TypeError. *)
Definition float_cmp_val (x : spec_float) (v : PyVal)
  : Res ExcClass (option comparison) :=
  match number v with
  | Some b => Ok (num_cmp (float_value x) b)
  | None => Raise TypeError
  end.

(** The same with the value on the left. *)
Definition val_cmp_float (v : PyVal) (y : spec_float)
  : Res ExcClass (option comparison) :=
  match number v with
  | Some a => Ok (num_cmp a (float_value y))
  | None => Raise TypeError
  end.

Definition is_le (c : option comparison) : bool :=
  match c with
  | Some Lt | Some Eq => true
  | _ => false
  end.

Definition is_eq (c : option comparison) : bool :=
  match c with
  | Some Eq => true
  | _ => false
  end.

(** [x <= v], [v <= y] and [x == v]. *)
Definition float_le_val (x : spec_float) (v : PyVal) : Res ExcClass bool :=
  bind (float_cmp_val x v) (fun c => Ok (is_le c)).

Definition val_le_float (v : PyVal) (y : spec_float) : Res ExcClass bool :=
  bind (val_cmp_float v y) (fun c => Ok (is_le c)).

(** [x == v] never raises: values of unrelated types are unequal. *)
Definition float_eq_val (x : spec_float) (v : PyVal) : bool :=
  match float_cmp_val x v with
  | Ok c => is_eq c
  | Raise _ => false
  end.

(** [v == y], the value on the left. *)
Definition val_eq_float (v : PyVal) (y : spec_float) : bool :=
  match val_cmp_float v y with
  | Ok c => is_eq c
  | Raise _ => false
  end.

(** The chained comparison [lo <= v <= hi], that is
    [lo <= v and v <= hi]: the second comparison is evaluated only when
    the first is true. *)
Definition between (lo : spec_float) (v : PyVal) (hi : spec_float)
  : Res ExcClass bool :=
  bind (float_le_val lo v) (fun b =>
    if b then val_le_float v hi else Ok false).

(** What the interpreter and the metric registry supply and the source
    file uses without defining: [float(s)] on a [str] ([None] when it
    raises ValueError), the text of a float ([str(x)], which an f-string
    uses too), and the registry's [Metrics.SUM.name]. The development is
    parametric in them. *)
Class Env : Type := {
  float_of_str : string -> option spec_float;
  str_of_float : spec_float -> string;
  Metrics_SUM_name : string
}.

(** [str(v)]. *)
Definition str `{Env} (v : PyVal) : string :=
  match v with
  | PyNone => "None"
  | PyInt z => pretty z
  | PyFloat x => str_of_float x
  | PyStr s => s
  end.

End Py.
Export Py.

(** ** The data model

    The schema classes are generated code outside the source file; a
    record keeps the fields the validator reads or writes. A field that
    the schema wraps in a one-field model ([entityLink.__root__], the
    test case's name) is modelled by the text it holds. *)

(** [datetime]: the validator copies it and never looks inside. *)
Definition datetime : Type := Z.

(** [TestCaseParameterValue] (both fields set). *)
Record TestCaseParameterValue : Type := mkParam {
  param_name : string;
  param_value : string
}.

(** [TestCase]. *)
Record TestCase : Type := mkTestCase {
  tc_name : string;
  entityLink : string;
  parameterValues : list TestCaseParameterValue
}.

(** [TestCaseStatus]. *)
Inductive TestCaseStatus : Type :=
| Success
| Failed
| Aborted.

(** [TestResultValue]: the value is optional text. *)
Record TestResultValue : Type := mkResultValue {
  rv_name : string;
  rv_value : option string
}.

(** [TestCaseResult]. *)
Record TestCaseResult : Type := mkResult {
  timestamp : datetime;
  testCaseStatus : TestCaseStatus;
  result : string;
  testResultValue : list TestResultValue
}.

(** A column of the runner's table, as [inspect(runner.table).c] lists
    them. *)
Record Column : Type := mkColumn { col_name : string }.

(** The runner's table: [__tablename__] and its columns, in order. *)
Record Table : Type := mkTable {
  tablename : string;
  columns : list Column
}.

(** The expression [Metrics.SUM.value(col).fn()]. *)
Inductive MetricExpr : Type :=
| SumFn (col : Column).

(** The first row of a query's result: labels and values, in order. *)
Definition Row : Type := list (string * PyVal).

(** [QueryRunner]. [dispatch_query_select_first] runs one query in the
    runner's session: it raises, or returns the first row, or [None]
    when the result has no row; the session may change. *)
Record QueryRunner (Session : Type) : Type := mkRunner {
  table : Table;
  dispatch_query_select_first :
    MetricExpr -> Session -> Res PyExc (option Row) * Session
}.
Arguments mkRunner {Session} _ _.
Arguments table {Session} _.
Arguments dispatch_query_select_first {Session} _ _ _.

(** What a call does besides returning. *)
Inductive Event : Type :=
| EvQuery (q : MetricExpr)      (* a call of dispatch_query_select_first *)
| EvLogDebug                     (* logger.debug(traceback.format_exc()) *)
| EvLogWarning (msg : string).   (* logger.warning(msg) *)

(** How a call ends: it returns a result, or an exception leaves it. *)
Inductive Outcome : Type :=
| Returns (r : TestCaseResult)
| Raises (e : ExcClass).

(** A finished call. *)
Record Run (Session : Type) : Type := mkRun {
  outcome : Outcome;
  session : Session;
  events : list Event
}.
Arguments mkRun {Session} _ _ _.
Arguments outcome {Session} _.
Arguments session {Session} _.
Arguments events {Session} _.

Definition is_query (ev : Event) : bool :=
  match ev with
  | EvQuery _ => true
  | _ => false
  end.

(** The number of queries a call issued. *)
Definition queries_issued (evs : list Event) : nat :=
  List.length (List.filter is_query evs).

(** ** The validator *)
Section Validator.

Context `{Env} {Session : Type}.

(** [dict(row)]: a later item with the same label replaces an earlier
    one; [dict(None)] raises TypeError. *)
Definition py_dict (row : option Row) : Res PyExc (gmap string PyVal) :=
  match row with
  | None => Raise (mkExc TypeError "'NoneType' object is not iterable")
  | Some items =>
      Ok (List.fold_left (fun d kv => <[kv.1 := kv.2]> d) items ∅)
  end.

(** [d.get(key)]. *)
Definition dict_get (d : gmap string PyVal) (key : string) : PyVal :=
  default PyNone (d !! key).

(** Line 49:
    [test_case.entityLink.__root__.split("::")[-1].replace(">", "")]. *)
Definition column_name_of (link : string) : string :=
  PyStr.remove_char ">" (PyStr.last_segment (PyStr.split_colons link)).

(** Lines 50-53: the first column of that name, if any. *)
Definition find_column (column_name : string) (t : Table) : option Column :=
  List.find (fun col => String.eqb (col_name col) column_name) (columns t).

(** Lines 55-57: the error of a missing column. *)
Definition column_not_found (column_name : string) (test_case : TestCase)
  : PyExc :=
  mkExc ValueError
    ("Cannot find the configured column " +:+ column_name
     +:+ " for test case " +:+ tc_name test_case).

(** Lines 49-62, the body of the [try]: the sum, or the exception that
    reaches the handler; the session afterwards, and the queries
    issued. *)
Definition fallible_block (test_case : TestCase)
    (runner : QueryRunner Session) (s : Session)
  : Res PyExc PyVal * Session * list Event :=
  let column_name := column_name_of (entityLink test_case) in
  match find_column column_name (table runner) with
  | None => (Raise (column_not_found column_name test_case), s, [])
  | Some col =>
      let q := SumFn col in
      let '(answer, s') := dispatch_query_select_first runner q s in
      (bind answer (fun row =>
       bind (py_dict row) (fun sum_value_dict =>
       Ok (dict_get sum_value_dict Metrics_SUM_name))),
       s', [EvQuery q])
  end.

(** Lines 65-67: the message of the handler. *)
Definition abort_message (test_case : TestCase)
    (runner : QueryRunner Session) (err : PyExc) : string :=
  "Error computing " +:+ tc_name test_case +:+ " for "
  +:+ tablename (table runner) +:+ ": " +:+ exc_str err.

(** Lines 70-75: the result of the handler. *)
Definition aborted_result (execution_date : datetime) (msg : string)
  : TestCaseResult :=
  mkResult execution_date Aborted msg [mkResultValue "sum" None].

(** Lines 77-83 and 84-90:
    [next(float(param.value) for param in ... if param.name == name)].
    The generator stops at the first parameter of that name and
    converts its value there; without such a parameter [next], which
    has no default, raises StopIteration. *)
Definition first_bound (name : string)
    (params : list TestCaseParameterValue) : Res ExcClass spec_float :=
  match List.find (fun param => String.eqb (param_name param) name) params with
  | None => Raise StopIteration
  | Some param =>
      match float_of_str (param_value param) with
      | Some x => Ok x
      | None => Raise ValueError
      end
  end.

(** Lines 97-100: the message of an evaluated test. *)
Definition found_message (sum_value_res : PyVal)
    (min_bound max_bound : spec_float) : string :=
  ("Found sum=" +:+ str sum_value_res +:+ " vs.")
  +:+ (" the expected min=" +:+ str_of_float min_bound
       +:+ ", max=" +:+ str_of_float max_bound +:+ ".").

(** Lines 77-107, what follows the [try] statement. *)
Definition evaluate (test_case : TestCase) (execution_date : datetime)
    (sum_value_res : PyVal) : Res ExcClass TestCaseResult :=
  bind (first_bound "minValueForColSum" (parameterValues test_case))
    (fun min_bound =>
  bind (first_bound "maxValueForColSum" (parameterValues test_case))
    (fun max_bound =>
  bind (between min_bound sum_value_res max_bound)
    (fun inside =>
  let status := if inside then Success else Failed in
  let result := found_message sum_value_res min_bound max_bound in
  Ok (mkResult execution_date status result
        [mkResultValue "sum" (Some (str sum_value_res))])))).

Definition to_outcome (r : Res ExcClass TestCaseResult) : Outcome :=
  match r with
  | Ok res => Returns res
  | Raise e => Raises e
  end.

(** The function of the source file. *)
Definition column_values_sum_to_be_between (test_case : TestCase)
    (execution_date : datetime) (runner : QueryRunner Session)
    (s : Session) : Run Session :=
  match fallible_block test_case runner s with
  | (Raise err, s', evs) =>
      let msg := abort_message test_case runner err in
      mkRun (Returns (aborted_result execution_date msg)) s'
            (evs ++ [EvLogDebug; EvLogWarning msg])
  | (Ok sum_value_res, s', evs) =>
      mkRun (to_outcome (evaluate test_case execution_date sum_value_res))
            s' evs
  end.

End Validator.

(** ** An environment to run the model in

    The theorems below hold for every [Env]. To evaluate the validator
    on concrete inputs this instance reads and writes plain decimal
    literals the way CPython does:
    - [float_of_decimal] accepts an optional sign, digits, and an
      optional point with digits, and rounds the number to the nearest
      binary64, ties to even. (CPython's [float] accepts more: exponents,
      [inf], [nan], surrounding blanks, underscores.)
    - [decimal_of_float] writes the exact decimal expansion of a float.
      That is CPython's text whenever no shorter decimal reads back as
      the same float and the number is below [1e16] (every integer
      below [2^53], halves, quarters, ...). *)
Module Decimal.

Definition digit_of (ch : ascii) : option Z :=
  let n := Z.of_N (N_of_ascii ch) in
  if (48 <=? n) && (n <=? 57) then Some (n - 48) else None.

(** The number a string of digits denotes, after [acc]. *)
Fixpoint digits_value (acc : Z) (s : string) : option Z :=
  match s with
  | EmptyString => Some acc
  | String ch rest =>
      match digit_of ch with
      | Some d => digits_value (10 * acc + d) rest
      | None => None
      end
  end.

(** Cuts a string at its first point. *)
Fixpoint cut_at_point (s : string) : string * option string :=
  match s with
  | EmptyString => (EmptyString, None)
  | String ch rest =>
      if Ascii.eqb ch "." then (EmptyString, Some rest)
      else let '(int_part, frac_part) := cut_at_point rest in
           (String ch int_part, frac_part)
  end.

(** [n / d] for positive [n] and [d], rounded once: the quotient is
    taken with more than 60 bits and one more bit records a remainder,
    so that rounding it rounds the exact quotient. *)
Definition round_ratio (n d : Z) : spec_float :=
  let shift := Z.log2 d + 64 in
  let q := (n * 2 ^ shift) / d in
  let sticky := if (n * 2 ^ shift) mod d =? 0 then 0 else 1 in
  binary_normalize prec emax (2 * q + sticky) (- (shift + 1)) false.

Definition with_sign (s : string) : bool * string :=
  match s with
  | String "-" rest => (true, rest)
  | String "+" rest => (false, rest)
  | _ => (false, s)
  end.

Definition float_of_decimal (s : string) : option spec_float :=
  let '(neg, body) := with_sign s in
  let '(int_part, frac) := cut_at_point body in
  let frac_part := default EmptyString frac in
  if (String.length int_part + String.length frac_part =? 0)%nat then None
  else
    match digits_value 0 (int_part +:+ frac_part) with
    | None => None
    | Some 0 => Some (S754_zero neg)
    | Some n =>
        let x := round_ratio n (10 ^ Z.of_nat (String.length frac_part)) in
        Some (if neg then SFopp x else x)
    end.

(** Drops the zeros at the end of a fraction. *)
Definition trim_zeros (digits : string) : string :=
  PyStr.rstrip_char "0" digits.

(** [n / 10^k] written out, [n >= 0]: at least one digit on either
    side of the point. *)
Definition fixed_point (n : Z) (k : nat) : string :=
  let int_part := pretty (n / 10 ^ Z.of_nat k) in
  let frac := pretty (n mod 10 ^ Z.of_nat k) in
  let padded :=
    String.concat "" (List.repeat "0" (k - String.length frac)) +:+ frac in
  let frac_part := if (k =? 0)%nat then "" else trim_zeros padded in
  int_part +:+ "." +:+ (if String.eqb frac_part "" then "0" else frac_part).

Definition decimal_of_float (x : spec_float) : string :=
  match x with
  | S754_nan => "nan"
  | S754_infinity neg => if neg then "-inf" else "inf"
  | S754_zero neg => if neg then "-0.0" else "0.0"
  | S754_finite neg m e =>
      (if neg then "-" else "") +:+
      (if 0 <=? e then fixed_point (Z.pos m * 2 ^ e) 0
       else fixed_point (Z.pos m * 5 ^ (- e)) (Z.to_nat (- e)))
  end.

(** The instance. The registry is not part of the source file and the
    specification leaves the casing of the SUM metric's name open; here
    it is ["sum"]. *)
Definition env : Env := {|
  float_of_str := float_of_decimal;
  str_of_float := decimal_of_float;
  Metrics_SUM_name := "sum"
|}.

End Decimal.

(** ** Predicates the properties are stated with *)

(** A decidable reading of "the string has a [::] in it". *)
Fixpoint has_colons (s : string) : bool :=
  match s with
  | EmptyString => false
  | String a rest =>
      match rest with
      | String b _ => (Ascii.eqb a ":" && Ascii.eqb b ":") || has_colons rest
      | EmptyString => false
      end
  end.

(** An [int] or a [float]: what a float can be ordered against. *)
Definition is_number (v : PyVal) : bool :=
  match v with
  | PyInt _ | PyFloat _ => true
  | PyNone | PyStr _ => false
  end.

(** The parameter collection has a parameter of that name. *)
Definition has_param (name : string) (params : list TestCaseParameterValue)
  : Prop :=
  exists param, param ∈ params /\ param_name param = name.

(** The same test case with other parameters. *)
Definition with_parameters (test_case : TestCase)
    (params : list TestCaseParameterValue) : TestCase :=
  mkTestCase (tc_name test_case) (entityLink test_case) params.

(** The failures of the [try] body, by cause, with the exception that
    reaches the handler. *)
Inductive block_failure {Session : Type} (test_case : TestCase)
    (runner : QueryRunner Session) (s : Session) : PyExc -> Prop :=
| ColumnNotFound :
    find_column (column_name_of (entityLink test_case)) (table runner) = None ->
    block_failure test_case runner s
      (column_not_found (column_name_of (entityLink test_case)) test_case)
| QueryRaised col err :
    find_column (column_name_of (entityLink test_case)) (table runner)
      = Some col ->
    (dispatch_query_select_first runner (SumFn col) s).1 = Raise err ->
    block_failure test_case runner s err
| NoRow col :
    find_column (column_name_of (entityLink test_case)) (table runner)
      = Some col ->
    (dispatch_query_select_first runner (SumFn col) s).1 = Ok None ->
    block_failure test_case runner s
      (mkExc TypeError "'NoneType' object is not iterable").

(** A runner whose answer to a query does not depend on its session. *)
Definition deterministic {Session : Type} (runner : QueryRunner Session)
  : Prop :=
  forall q s1 s2,
    (dispatch_query_select_first runner q s1).1
    = (dispatch_query_select_first runner q s2).1.

(** Two calls end alike, the timestamp aside. *)
Definition same_verdict (o1 o2 : Outcome) : Prop :=
  match o1, o2 with
  | Returns r1, Returns r2 =>
      testCaseStatus r1 = testCaseStatus r2
      /\ result r1 = result r2
      /\ testResultValue r1 = testResultValue r2
  | Raises e1, Raises e2 => e1 = e2
  | _, _ => False
  end.

(** A record of the logger. *)
Definition is_log (ev : Event) : bool :=
  match ev with
  | EvLogDebug | EvLogWarning _ => true
  | EvQuery _ => false
  end.

(** The last character of the string is a colon. *)
Fixpoint ends_with_colon (s : string) : bool :=
  match s with
  | EmptyString => false
  | String a rest =>
      match rest with
      | EmptyString => Ascii.eqb a ":"
      | String _ _ => ends_with_colon rest
      end
  end.

(** [a <= b] on numbers: false when one of them is a NaN. *)
Definition num_le (a b : Extended) : bool := is_le (num_cmp a b).

(** One of the two parameters the validator reads. *)
Definition is_bound_param (param : TestCaseParameterValue) : bool :=
  String.eqb (param_name param) "minValueForColSum"
  || String.eqb (param_name param) "maxValueForColSum".

(** The status of a returned result. *)
Definition testCaseStatus_of (o : Outcome) : option TestCaseStatus :=
  match o with
  | Returns r => Some (testCaseStatus r)
  | Raises _ => None
  end.

(** ** Inputs for the examples *)
Module Examples.

(** A table [orders] with the columns [id] and [amount]. *)
Definition orders : Table :=
  mkTable "orders" [mkColumn "id"; mkColumn "amount"].

(** The float a decimal literal denotes. *)
Definition float_lit (literal : string) : spec_float :=
  default S754_nan (Decimal.float_of_decimal literal).

(** A runner without state whose query answers one row, [sum = total]. *)
Definition summing (total : PyVal) : QueryRunner unit :=
  mkRunner orders (fun _ s => (Ok (Some [("sum", total)]), s)).

(** A runner whose query fails. *)
Definition faulting (text : string) : QueryRunner unit :=
  mkRunner orders (fun _ s => (Raise (mkExc RunnerError text), s)).

(** A runner whose row has no [sum]. *)
Definition unlabelled : QueryRunner unit :=
  mkRunner orders (fun _ s => (Ok (Some [("count", PyInt 3)]), s)).

(** A runner that counts its queries in its session and always
    answers [sum = 150]. *)
Definition metered : QueryRunner Z :=
  mkRunner orders (fun _ n => (Ok (Some [("sum", PyInt 150)]), n + 1)).

(** A runner that counts its queries and answers with the count. *)
Definition counting : QueryRunner Z :=
  mkRunner orders (fun _ n => (Ok (Some [("sum", PyInt n)]), n + 1)).

Definition bounds (lo hi : string) : list TestCaseParameterValue :=
  [mkParam "minValueForColSum" lo; mkParam "maxValueForColSum" hi].

Definition amount_between (lo hi : string) : TestCase :=
  mkTestCase "amount_sum" "<#E::table::shop.public.orders::amount>"
    (bounds lo hi).

(** The sum of [amount], bounds missing. *)
Definition unbounded : TestCase :=
  mkTestCase "amount_sum" "<#E::table::shop.public.orders::amount>" [].

(** A link whose last segment has a [>] inside. *)
Definition odd_link : string := "<#E::table::shop.public.orders::a>b>".

(** A link to a column that [orders] does not have. *)
Definition stray : TestCase :=
  mkTestCase "amount_sum" "<#E::table::shop.public.orders::nonexistent>"
    (bounds "100" "200").

(** A link without separator. *)
Definition bare : TestCase :=
  mkTestCase "amount_sum" "amount>" (bounds "100" "200").

(** A runner whose row has two items labelled [sum] and one that is
    not. *)
Definition relabelled (first last : PyVal) : QueryRunner unit :=
  mkRunner orders
    (fun _ s => (Ok (Some [("sum", first); ("sum", last);
                           ("count", PyInt 3)]), s)).

(** Bounds followed by further parameters. *)
Definition crowded (lo hi : string) : TestCase :=
  mkTestCase "amount_sum" "<#E::table::shop.public.orders::amount>"
    (mkParam "columnName" "amount" :: bounds lo hi).

(** A lower bound that does not read as a float, before one that
    does. *)
Definition misread : TestCase :=
  mkTestCase "amount_sum" "<#E::table::shop.public.orders::amount>"
    (mkParam "minValueForColSum" "abc" :: bounds "100" "200").

Definition when : datetime := 1650000000.

Definition run (test_case : TestCase) (runner : QueryRunner unit)
  : Outcome :=
  outcome (column_values_sum_to_be_between (H := Decimal.env)
             test_case 1650000000 runner tt).

End Examples.

(** ** Facts about the string operations *)
Module PyStrFacts.
Import PyStr.

(** Induction over a string two characters at a time, the way
    [split_colons] reads it. *)
Lemma string_pair_ind (P : string -> Prop) :
  P EmptyString ->
  (forall a, P (String a EmptyString)) ->
  (forall a b s, P s -> P (String b s) -> P (String a (String b s))) ->
  forall s, P s.
Proof.
  intros Hnil Hone Hstep s.
  assert (Hboth : P s /\ forall a, P (String a s)).
  { induction s as [|b s [IHs IHbs]]; split; auto. }
  apply Hboth.
Qed.

Lemma append_assoc (a b c : string) : (a +:+ b) +:+ c = a +:+ (b +:+ c).
Proof.
  induction a as [|ch a IH]; [reflexivity|].
  change (String ch ((a +:+ b) +:+ c) = String ch (a +:+ (b +:+ c))).
  now rewrite IH.
Qed.

Lemma split_colons_not_nil s : split_colons s <> [].
Proof.
  induction s as [|a|a b s IHs IHbs] using string_pair_ind; simpl; try easy.
  destruct (Ascii.eqb a ":" && Ascii.eqb b ":"); [easy|].
  change (push_front a (split_colons (String b s)) <> []).
  destruct (split_colons (String b s)); easy.
Qed.

Lemma join_cons sep seg segs :
  segs <> [] -> join sep (seg :: segs) = seg +:+ sep +:+ join sep segs.
Proof. destruct segs; [easy|reflexivity]. Qed.

Lemma join_push_front sep ch segs :
  segs <> [] -> join sep (push_front ch segs) = String ch (join sep segs).
Proof.
  destruct segs as [|seg [|seg' rest]]; [easy|reflexivity|reflexivity].
Qed.

Lemma split_colons_step a b s :
  split_colons (String a (String b s)) =
  if Ascii.eqb a ":" && Ascii.eqb b ":"
  then EmptyString :: split_colons s
  else push_front a (split_colons (String b s)).
Proof. reflexivity. Qed.

(** ["::".join(s.split("::")) == s]. *)
Lemma join_split_colons s : join "::" (split_colons s) = s.
Proof.
  induction s as [|a|a b s IHs IHbs] using string_pair_ind;
    [reflexivity|reflexivity|].
  rewrite split_colons_step.
  destruct (Ascii.eqb a ":" && Ascii.eqb b ":") eqn:Hsep.
  - apply andb_prop in Hsep as [Ha Hb].
    apply Ascii.eqb_eq in Ha, Hb; subst a b.
    rewrite join_cons by apply split_colons_not_nil.
    rewrite IHs; reflexivity.
  - rewrite join_push_front by apply split_colons_not_nil.
    rewrite IHbs; reflexivity.
Qed.

Lemma has_colons_step a b s :
  has_colons (String a (String b s)) =
  (Ascii.eqb a ":" && Ascii.eqb b ":") || has_colons (String b s).
Proof. reflexivity. Qed.

(** [has_colons] decides [occurs "::"]. *)
Lemma has_colons_occurs s : has_colons s = true <-> occurs "::" s.
Proof.
  split.
  - induction s as [|a|a b s IHs IHbs] using string_pair_ind;
      [discriminate|discriminate|].
    rewrite has_colons_step. intros Hor.
    apply orb_prop in Hor as [Hsep|Hrest].
    + apply andb_prop in Hsep as [Ha Hb].
      apply Ascii.eqb_eq in Ha, Hb; subst a b.
      exists EmptyString, s; reflexivity.
    + destruct (IHbs Hrest) as (before & after & Heq).
      exists (String a before), after.
      change (String a (String b s)
              = String a (before +:+ "::" +:+ after)).
      now rewrite Heq.
  - intros (before & after & ->).
    induction before as [|c before IH]; [reflexivity|].
    change (has_colons (String c (before +:+ "::" +:+ after)) = true).
    destruct (before +:+ "::" +:+ after) as [|d t] eqn:Ht.
    { destruct before; discriminate. }
    rewrite has_colons_step, IH. apply orb_true_r.
Qed.

Lemma no_colons_not_occurs s : has_colons s = false <-> ~ occurs "::" s.
Proof.
  rewrite <- has_colons_occurs. destruct (has_colons s); split; easy.
Qed.

(** Without a separator the split is the string itself. *)
Lemma split_colons_whole s : has_colons s = false -> split_colons s = [s].
Proof.
  induction s as [|a|a b s IHs IHbs] using string_pair_ind;
    [reflexivity|reflexivity|].
  rewrite has_colons_step, split_colons_step. intros Hor.
  apply orb_false_elim in Hor as [Hsep Hrest].
  rewrite Hsep, (IHbs Hrest). reflexivity.
Qed.

Lemma last_push_front ch segs :
  last_segment (push_front ch segs) =
  match segs with
  | [] => String ch EmptyString
  | [seg] => String ch seg
  | _ :: _ :: _ => last_segment segs
  end.
Proof. destruct segs as [|seg [|seg' rest]]; reflexivity. Qed.

(** The last segment of a split has no separator in it. *)
Lemma last_segment_no_colons s :
  has_colons (last_segment (split_colons s)) = false.
Proof.
  induction s as [|a|a b s IHs IHbs] using string_pair_ind;
    [reflexivity|reflexivity|].
  rewrite split_colons_step.
  destruct (Ascii.eqb a ":" && Ascii.eqb b ":") eqn:Hsep.
  - pose proof (split_colons_not_nil s) as Hne.
    destruct (split_colons s) as [|seg segs] eqn:Hs; [easy|]. exact IHs.
  - rewrite last_push_front.
    pose proof (join_split_colons (String b s)) as Hjoin.
    destruct (split_colons (String b s)) as [|seg [|seg' rest]] eqn:Hs.
    + reflexivity.
    + simpl in Hjoin. subst seg.
      rewrite has_colons_step, Hsep. exact IHbs.
    + exact IHbs.
Qed.

(** The split ends with its last segment. *)
Lemma split_colons_last s :
  exists front,
    split_colons s = (front ++ [last_segment (split_colons s)])%list.
Proof.
  pose proof (split_colons_not_nil s) as Hne.
  destruct (exists_last Hne) as (front & seg & Heq).
  exists front. rewrite Heq. unfold last_segment.
  now rewrite List.last_last.
Qed.

Lemma remove_char_filter ch s :
  list_ascii_of_string (remove_char ch s) =
  List.filter (fun a => negb (Ascii.eqb a ch)) (list_ascii_of_string s).
Proof.
  induction s as [|a s IH]; [reflexivity|]. simpl.
  destruct (Ascii.eqb a ch); simpl; now rewrite IH.
Qed.

Lemma remove_char_gone ch s : mem_char ch (remove_char ch s) = false.
Proof.
  induction s as [|a s IH]; [reflexivity|]. simpl.
  destruct (Ascii.eqb a ch) eqn:Ha; [exact IH|]. simpl. now rewrite Ha.
Qed.

Lemma remove_char_absent ch s : mem_char ch s = false -> remove_char ch s = s.
Proof.
  induction s as [|a s IH]; [reflexivity|]. simpl. intros Hor.
  apply orb_false_elim in Hor as [Ha Hs]. now rewrite Ha, IH.
Qed.

(** Removing every occurrence after stripping the end is removing
    every occurrence. *)
Lemma remove_char_rstrip ch s :
  remove_char ch (rstrip_char ch s) = remove_char ch s.
Proof.
  induction s as [|a s IH]; [reflexivity|]. simpl.
  destruct (rstrip_char ch s) as [|k kept] eqn:Hk.
  - destruct (Ascii.eqb a ch) eqn:Ha; simpl; rewrite ?Ha, <- IH; reflexivity.
  - rewrite <- IH. reflexivity.
Qed.

(** When stripping the end leaves no occurrence, stripping and
    removing agree. *)
Lemma rstrip_is_remove ch s :
  mem_char ch (rstrip_char ch s) = false ->
  remove_char ch s = rstrip_char ch s.
Proof.
  intros Hno. rewrite <- remove_char_rstrip. now apply remove_char_absent.
Qed.

End PyStrFacts.

(** ** Facts about the validator's steps *)
Section ValidatorFacts.

Context `{Env} {Session : Type}.
Implicit Types (test_case : TestCase) (execution_date : datetime)
  (runner : QueryRunner Session) (s : Session) (v : PyVal).

Lemma fallible_block_not_found test_case runner s :
  find_column (column_name_of (entityLink test_case)) (table runner) = None ->
  fallible_block test_case runner s =
  (Raise (column_not_found (column_name_of (entityLink test_case)) test_case),
   s, []).
Proof. unfold fallible_block. now intros ->. Qed.

Lemma fallible_block_found test_case runner s col :
  find_column (column_name_of (entityLink test_case)) (table runner)
    = Some col ->
  fallible_block test_case runner s =
  (bind (dispatch_query_select_first runner (SumFn col) s).1 (fun row =>
   bind (py_dict row) (fun sum_value_dict =>
   Ok (dict_get sum_value_dict Metrics_SUM_name))),
   (dispatch_query_select_first runner (SumFn col) s).2,
   [EvQuery (SumFn col)]).
Proof.
  unfold fallible_block. intros ->.
  now destruct (dispatch_query_select_first runner (SumFn col) s).
Qed.

(** The handler runs exactly on the failures listed by
    [block_failure]. *)
Lemma fallible_block_raises test_case runner s err :
  (fallible_block test_case runner s).1.1 = Raise err
  <-> block_failure test_case runner s err.
Proof.
  destruct (find_column (column_name_of (entityLink test_case))
              (table runner)) as [col|] eqn:Hcol.
  - rewrite (fallible_block_found _ _ _ _ Hcol). cbn [fst].
    split.
    + destruct (dispatch_query_select_first runner (SumFn col) s).1
        as [[row|]|e] eqn:Hanswer; cbn; intros Heq; try discriminate.
      * injection Heq as <-. now apply NoRow with col.
      * injection Heq as <-. now apply QueryRaised with col.
    + intros [Hnone|col' err' Hcol' Hraise|col' Hcol' Hnorow].
      * congruence.
      * assert (col' = col) as -> by congruence. now rewrite Hraise.
      * assert (col' = col) as -> by congruence. now rewrite Hnorow.
  - rewrite (fallible_block_not_found _ _ _ Hcol). cbn [fst].
    split.
    + intros Heq. injection Heq as <-. now apply ColumnNotFound.
    + intros [Hnone|col' err' Hcol' _|col' Hcol' _]; congruence.
Qed.

Lemma run_aborted test_case execution_date runner s err s' evs :
  fallible_block test_case runner s = (Raise err, s', evs) ->
  column_values_sum_to_be_between test_case execution_date runner s =
  mkRun (Returns (aborted_result execution_date
                    (abort_message test_case runner err)))
    s' (evs ++ [EvLogDebug;
                EvLogWarning (abort_message test_case runner err)]).
Proof. unfold column_values_sum_to_be_between. now intros ->. Qed.

Lemma run_evaluated test_case execution_date runner s v s' evs :
  fallible_block test_case runner s = (Ok v, s', evs) ->
  column_values_sum_to_be_between test_case execution_date runner s =
  mkRun (to_outcome (evaluate test_case execution_date v)) s' evs.
Proof. unfold column_values_sum_to_be_between. now intros ->. Qed.

(** The parameters play no part in the [try] body. *)
Lemma fallible_block_parameters test_case params runner s :
  fallible_block (with_parameters test_case params) runner s
  = fallible_block test_case runner s.
Proof. reflexivity. Qed.

Lemma has_param_find name params :
  has_param name params <->
  exists param,
    List.find (fun param => String.eqb (param_name param) name) params
    = Some param.
Proof.
  split.
  - intros (param & Hin & Hname).
    destruct (List.find _ params) as [found|] eqn:Hfind; [now exists found|].
    apply list_elem_of_In in Hin.
    apply (List.find_none _ _ Hfind) in Hin.
    rewrite Hname, String.eqb_refl in Hin. discriminate.
  - intros (param & Hfind). apply List.find_some in Hfind as [Hin Hname].
    exists param. split; [now apply list_elem_of_In|].
    now apply String.eqb_eq.
Qed.

Lemma no_param_find name params :
  List.find (fun param => String.eqb (param_name param) name) params = None
  -> ~ has_param name params.
Proof. rewrite has_param_find. intros -> (param & Hfind). discriminate. Qed.

(** [next] on a generator that yields nothing. *)
Lemma first_bound_missing name params :
  ~ has_param name params -> first_bound name params = Raise StopIteration.
Proof.
  rewrite has_param_find. unfold first_bound. intros Hno.
  destruct (List.find _ params) as [found|]; [|reflexivity].
  destruct Hno. now exists found.
Qed.

Lemma first_bound_present name params x :
  first_bound name params = Ok x -> has_param name params.
Proof.
  rewrite has_param_find. unfold first_bound.
  destruct (List.find _ params) as [found|]; [|discriminate].
  intros _. now exists found.
Qed.

(** The chained comparison raises on nothing but a sum that is not a
    number. *)
Lemma between_number lo v hi :
  is_number v = true ->
  between lo v hi =
  Ok (match float_le_val lo v, val_le_float v hi with
      | Ok true, Ok true => true
      | _, _ => false
      end).
Proof.
  intros Hv. unfold between, float_le_val, val_le_float, float_cmp_val,
    val_cmp_float.
  destruct (number v) as [a|] eqn:Hnum; [|now destruct v].
  cbn [bind]. destruct (is_le (num_cmp (float_value lo) a)); [|reflexivity].
  now destruct (is_le (num_cmp a (float_value hi))).
Qed.

Lemma between_not_number lo v hi :
  is_number v = false -> between lo v hi = Raise TypeError.
Proof. now destruct v. Qed.

(** What follows the [try] with both bounds read and a number for the
    sum. *)
Lemma evaluate_number test_case execution_date v lo hi :
  first_bound "minValueForColSum" (parameterValues test_case) = Ok lo ->
  first_bound "maxValueForColSum" (parameterValues test_case) = Ok hi ->
  is_number v = true ->
  evaluate test_case execution_date v =
  Ok (mkResult execution_date
        (match float_le_val lo v, val_le_float v hi with
         | Ok true, Ok true => Success
         | _, _ => Failed
         end)
        (found_message v lo hi)
        [mkResultValue "sum" (Some (str v))]).
Proof.
  intros Hlo Hhi Hv. unfold evaluate. rewrite Hlo, Hhi. cbn [bind].
  rewrite (between_number _ _ _ Hv). cbn [bind].
  destruct (float_le_val lo v) as [[|]|]; try reflexivity.
  now destruct (val_le_float v hi) as [[|]|].
Qed.

(** What follows the [try] returns only in that case, and never an
    Aborted result. *)
Lemma evaluate_returns test_case execution_date v res :
  evaluate test_case execution_date v = Ok res ->
  testCaseStatus res <> Aborted /\
  exists lo hi,
    first_bound "minValueForColSum" (parameterValues test_case) = Ok lo
    /\ first_bound "maxValueForColSum" (parameterValues test_case) = Ok hi
    /\ is_number v = true.
Proof.
  unfold evaluate.
  destruct (first_bound "minValueForColSum" _) as [lo|]; [|discriminate].
  destruct (first_bound "maxValueForColSum" _) as [hi|]; [|discriminate].
  cbn [bind]. destruct (is_number v) eqn:Hv.
  - rewrite (between_number _ _ _ Hv). cbn [bind]. intros [= <-]. split.
    + cbn. now destruct (match float_le_val lo v with
                         | Ok true => _ | _ => _ end).
    + now exists lo, hi.
  - now rewrite (between_not_number _ _ _ Hv).
Qed.

(** A sum that is not a number never gives a result. *)
Lemma evaluate_not_number test_case execution_date v :
  is_number v = false ->
  exists e, evaluate test_case execution_date v = Raise e.
Proof.
  intros Hv. unfold evaluate.
  destruct (first_bound "minValueForColSum" _) as [lo|e]; [|now exists e].
  destruct (first_bound "maxValueForColSum" _) as [hi|e]; [|now exists e].
  cbn [bind]. rewrite (between_not_number _ _ _ Hv). now exists TypeError.
Qed.

Lemma fold_insert_absent (key : string) (items : Row) :
  (forall value, (key, value) ∉ items) ->
  forall d : gmap string PyVal,
    d !! key = None ->
    List.fold_left (fun d kv => <[kv.1 := kv.2]> d) items d !! key = None.
Proof.
  induction items as [|[k value] items IH]; intros Hno d Hd; [exact Hd|].
  cbn [List.fold_left]. apply IH.
  - intros value' Hin. apply (Hno value'). now right.
  - cbn. rewrite lookup_insert_ne; [exact Hd|].
    intros ->. apply (Hno value). now left.
Qed.

(** [d.get(key)] on the dictionary of a row without that label. *)
Lemma dict_get_absent key items d :
  (forall value, (key, value) ∉ items) ->
  py_dict (Some items) = Ok d -> dict_get d key = PyNone.
Proof.
  intros Hno [= <-]. unfold dict_get.
  now rewrite (fold_insert_absent key items Hno ∅ (lookup_empty key)).
Qed.

Lemma found_message_flat v lo hi :
  found_message v lo hi =
  "Found sum=" +:+ str v +:+ " vs. the expected min=" +:+ str_of_float lo
  +:+ ", max=" +:+ str_of_float hi +:+ ".".
Proof.
  unfold found_message. rewrite !PyStrFacts.append_assoc. reflexivity.
Qed.

End ValidatorFacts.

(** ** How a call ends, read off the [try] body *)
Section RunFacts.

Context `{Env} {Session : Type}.
Implicit Types (test_case : TestCase) (execution_date : datetime)
  (runner : QueryRunner Session) (s : Session) (v : PyVal).

Lemma outcome_by_block test_case execution_date runner s :
  outcome (column_values_sum_to_be_between test_case execution_date runner s)
  = match (fallible_block test_case runner s).1.1 with
    | Raise err =>
        Returns (aborted_result execution_date
                   (abort_message test_case runner err))
    | Ok v => to_outcome (evaluate test_case execution_date v)
    end.
Proof.
  unfold column_values_sum_to_be_between.
  now destruct (fallible_block test_case runner s) as [[[v|err] s'] evs].
Qed.

Lemma queries_by_block test_case execution_date runner s :
  queries_issued
    (events (column_values_sum_to_be_between test_case execution_date
               runner s))
  = queries_issued (fallible_block test_case runner s).2.
Proof.
  unfold column_values_sum_to_be_between.
  destruct (fallible_block test_case runner s) as [[[v|err] s'] evs];
    [reflexivity|].
  cbn [events snd]. unfold queries_issued.
  rewrite List.filter_app, List.length_app. cbn. lia.
Qed.

(** The timestamp is the only trace the date leaves. *)
Lemma evaluate_same_verdict test_case d1 d2 v :
  same_verdict (to_outcome (evaluate test_case d1 v))
               (to_outcome (evaluate test_case d2 v)).
Proof.
  unfold evaluate.
  destruct (first_bound "minValueForColSum" _) as [lo|e]; [|reflexivity].
  destruct (first_bound "maxValueForColSum" _) as [hi|e]; [|reflexivity].
  cbn [bind]. destruct (between lo v hi) as [inside|e]; [|reflexivity].
  cbn. auto.
Qed.

(** A deterministic runner gives the [try] body the same end in every
    session. *)
Lemma deterministic_block test_case runner s1 s2 :
  deterministic runner ->
  (fallible_block test_case runner s1).1.1
  = (fallible_block test_case runner s2).1.1.
Proof.
  intros Hdet.
  destruct (find_column (column_name_of (entityLink test_case))
              (table runner)) as [col|] eqn:Hcol.
  - rewrite !(fallible_block_found _ _ _ _ Hcol). cbn [fst].
    now rewrite (Hdet (SumFn col) s1 s2).
  - now rewrite !(fallible_block_not_found _ _ _ Hcol).
Qed.

(** With [None] for the sum the call never returns a result, whatever
    the parameters. *)
Lemma none_sum_never_returns test_case execution_date runner s s' evs :
  fallible_block test_case runner s = (Ok PyNone, s', evs) ->
  exists e,
    outcome (column_values_sum_to_be_between test_case execution_date
               runner s) = Raises e.
Proof.
  intros Hblock. rewrite outcome_by_block, Hblock. cbn [fst].
  destruct (evaluate_not_number test_case execution_date PyNone eq_refl)
    as [e ->].
  now exists e.
Qed.

End RunFacts.

(** ** The properties of the validator *)
Section Properties.

Context `{Env} {Session : Type}.
Implicit Types (test_case : TestCase) (execution_date : datetime)
  (runner : QueryRunner Session) (s : Session) (v : PyVal).

(** When a call returns: exactly when the [try] body failed (the
    handler turns every such failure into a result), or when the body
    gave a sum that is a number and both bounds are present and read
    as floats. *)
Lemma returns_exactly_when test_case execution_date runner s :
  (exists res,
     outcome (column_values_sum_to_be_between test_case execution_date
                runner s) = Returns res)
  <->
  (exists err, block_failure test_case runner s err)
  \/ (exists v lo hi,
        (fallible_block test_case runner s).1.1 = Ok v
        /\ is_number v = true
        /\ first_bound "minValueForColSum" (parameterValues test_case)
           = Ok lo
        /\ first_bound "maxValueForColSum" (parameterValues test_case)
           = Ok hi).
Proof.
  rewrite outcome_by_block.
  destruct (fallible_block test_case runner s).1.1 as [v|err] eqn:Hblock.
  - split.
    + intros [res Hres]. right.
      destruct (evaluate test_case execution_date v) as [res'|e] eqn:Heval;
        [|discriminate].
      apply evaluate_returns in Heval as (_ & lo & hi & Hlo & Hhi & Hv).
      now exists v, lo, hi.
    + intros [[err Hfail]|(v' & lo & hi & Hv' & Hnum & Hlo & Hhi)].
      * apply fallible_block_raises in Hfail. congruence.
      * injection Hv' as <-.
        rewrite (evaluate_number _ _ _ _ _ Hlo Hhi Hnum). cbn. eauto.
  - split; [|eauto].
    intros _. left. exists err. now apply fallible_block_raises.
Qed.

(** C1, as amended. The call returns a TestCaseResult whenever the
    [try] body fails (the handler turns the failure into a result), and
    whenever the body gives a sum that is a number while both bounds
    are present and read as floats. *)
Theorem C1_returns_when_evaluable test_case execution_date runner s :
  (exists err, block_failure test_case runner s err)
  \/ (exists v lo hi,
        (fallible_block test_case runner s).1.1 = Ok v
        /\ is_number v = true
        /\ first_bound "minValueForColSum" (parameterValues test_case)
           = Ok lo
        /\ first_bound "maxValueForColSum" (parameterValues test_case)
           = Ok hi) ->
  exists res,
    outcome (column_values_sum_to_be_between test_case execution_date
               runner s) = Returns res.
Proof. apply returns_exactly_when. Qed.

(** C2. With the column resolved and the query answered, a test case
    that lacks the parameter minValueForColSum or the parameter
    maxValueForColSum makes the call raise: no result is returned, and
    a missing minValueForColSum surfaces as StopIteration. *)
Theorem C2_missing_bound_raises test_case execution_date runner s
    col row s' :
  find_column (column_name_of (entityLink test_case)) (table runner)
    = Some col ->
  dispatch_query_select_first runner (SumFn col) s = (Ok (Some row), s') ->
  ~ has_param "minValueForColSum" (parameterValues test_case)
  \/ ~ has_param "maxValueForColSum" (parameterValues test_case) ->
  (exists e,
     outcome (column_values_sum_to_be_between test_case execution_date
                runner s) = Raises e)
  /\ (forall res,
        outcome (column_values_sum_to_be_between test_case execution_date
                   runner s) <> Returns res)
  /\ (~ has_param "minValueForColSum" (parameterValues test_case) ->
      outcome (column_values_sum_to_be_between test_case execution_date
                 runner s) = Raises StopIteration).
Proof.
  intros Hcol Hrow Hlacks.
  rewrite outcome_by_block, (fallible_block_found _ _ _ _ Hcol), Hrow.
  cbn [fst bind py_dict]. unfold evaluate.
  set (v := dict_get _ _). clearbody v.
  assert (Hraise : exists e,
    bind (first_bound "minValueForColSum" (parameterValues test_case))
      (fun min_bound =>
       bind (first_bound "maxValueForColSum" (parameterValues test_case))
         (fun max_bound =>
          bind (between min_bound v max_bound) (fun inside =>
            Ok (mkResult execution_date
                  (if inside then Success else Failed)
                  (found_message v min_bound max_bound)
                  [mkResultValue "sum" (Some (str v))]))))
    = Raise e
    /\ (~ has_param "minValueForColSum" (parameterValues test_case) ->
        e = StopIteration)).
  { destruct Hlacks as [Hmin|Hmax].
    - rewrite (first_bound_missing _ _ Hmin). now exists StopIteration.
    - destruct (first_bound "minValueForColSum" _) as [lo|e] eqn:Hlo.
      + rewrite (first_bound_missing _ _ Hmax). exists StopIteration.
        split; [reflexivity|]. intros Hmin. destruct Hmin.
        now apply first_bound_present with lo.
      + exists e. split; [reflexivity|]. intros Hmin.
        rewrite (first_bound_missing _ _ Hmin) in Hlo. congruence. }
  destruct Hraise as (e & -> & Hstop). cbn [to_outcome].
  split; [now exists e|]. split; [discriminate|].
  intros Hmin. now rewrite (Hstop Hmin).
Qed.

(** C3. Once the [try] body has given a sum, no returned result is
    Aborted; and with bounds [lo] and [hi] read and a number for the
    sum the call returns, with status Success exactly when
    [lo <= sum] and [sum <= hi] both hold and Failed otherwise. The
    ends are inside: a sum equal to [lo] (and not above [hi]), or equal
    to [hi] (and not below [lo]), is a Success. *)
Theorem C3_status_is_inclusive_range test_case execution_date runner s
    v s' evs :
  fallible_block test_case runner s = (Ok v, s', evs) ->
  (forall res,
     outcome (column_values_sum_to_be_between test_case execution_date
                runner s) = Returns res ->
     testCaseStatus res <> Aborted)
  /\ (forall lo hi,
        first_bound "minValueForColSum" (parameterValues test_case)
          = Ok lo ->
        first_bound "maxValueForColSum" (parameterValues test_case)
          = Ok hi ->
        is_number v = true ->
        exists res,
          outcome (column_values_sum_to_be_between test_case
                     execution_date runner s) = Returns res
          /\ (testCaseStatus res = Success <->
              float_le_val lo v = Ok true /\ val_le_float v hi = Ok true)
          /\ (testCaseStatus res = Failed <->
              ~ (float_le_val lo v = Ok true
                 /\ val_le_float v hi = Ok true))
          /\ (float_eq_val lo v = true -> val_le_float v hi = Ok true ->
              testCaseStatus res = Success)
          /\ (val_eq_float v hi = true -> float_le_val lo v = Ok true ->
              testCaseStatus res = Success)).
Proof.
  intros Hblock. rewrite outcome_by_block, Hblock. cbn [fst]. split.
  - intros res Hres.
    destruct (evaluate test_case execution_date v) as [res'|e] eqn:Heval;
      [|discriminate].
    injection Hres as <-. now apply evaluate_returns in Heval.
  - intros lo hi Hlo Hhi Hnum.
    rewrite (evaluate_number _ _ _ _ _ Hlo Hhi Hnum).
    eexists. split; [reflexivity|]. cbn [testCaseStatus].
    assert (Heq_le : float_eq_val lo v = true -> float_le_val lo v = Ok true).
    { unfold float_eq_val, float_le_val.
      destruct (float_cmp_val lo v) as [[[| |]|]|]; now cbn. }
    assert (Heq_ge : val_eq_float v hi = true -> val_le_float v hi = Ok true).
    { unfold val_eq_float, val_le_float.
      destruct (val_cmp_float v hi) as [[[| |]|]|]; now cbn. }
    destruct (float_le_val lo v) as [[|]|e1];
      destruct (val_le_float v hi) as [[|]|e2];
      repeat split; try easy; try (intros [? ?]; easy);
      try (intros Hn; exfalso; apply Hn; easy);
      try (intros Heq; specialize (Heq_le Heq); easy);
      try (intros Heq; specialize (Heq_ge Heq); easy).
Qed.

(** C4. Whatever fails in the [try] body (the column is not on the
    runner's table, the runner's query raises, or it answers no row),
    the call returns a result with the date for timestamp, status
    Aborted, the message
    "Error computing <name> for <table>: <error>" and the one result
    value "sum" without a value. The parameters are not looked at: any
    other parameter collection gives the same outcome. *)
Theorem C4_failure_is_aborted test_case execution_date runner s err :
  block_failure test_case runner s err ->
  outcome (column_values_sum_to_be_between test_case execution_date
             runner s)
  = Returns (mkResult execution_date Aborted
               ("Error computing " +:+ tc_name test_case +:+ " for "
                +:+ tablename (table runner) +:+ ": " +:+ exc_str err)
               [mkResultValue "sum" None])
  /\ (forall params,
        outcome (column_values_sum_to_be_between
                   (with_parameters test_case params) execution_date
                   runner s)
        = outcome (column_values_sum_to_be_between test_case
                     execution_date runner s)).
Proof.
  intros Hfail. apply fallible_block_raises in Hfail. split.
  - now rewrite outcome_by_block, Hfail.
  - intros params.
    rewrite !outcome_by_block, fallible_block_parameters, Hfail.
    reflexivity.
Qed.

(** C5, as amended. The column name is the last segment of the link
    split at "::" with every ">" removed, those inside the segment
    too: its characters are the segment's characters other than ">",
    in order. It is the segment with the ">" at its end stripped
    exactly when that leaves no ">" inside. *)
Theorem C5_column_name_is_last_segment_without_gt (link : string) :
  exists front seg,
    PyStr.split_colons link = (front ++ [seg])%list
    /\ PyStr.join "::" (front ++ [seg]) = link
    /\ ~ PyStr.occurs "::" seg
    /\ column_name_of link = PyStr.remove_char ">" seg
    /\ list_ascii_of_string (column_name_of link)
       = List.filter (fun a => negb (Ascii.eqb a ">"))
           (list_ascii_of_string seg)
    /\ PyStr.mem_char ">" (column_name_of link) = false
    /\ (column_name_of link = PyStr.rstrip_char ">" seg
        <-> PyStr.mem_char ">" (PyStr.rstrip_char ">" seg) = false).
Proof.
  destruct (PyStrFacts.split_colons_last link) as [front Hsplit].
  exists front, (PyStr.last_segment (PyStr.split_colons link)).
  split; [exact Hsplit|].
  split; [rewrite <- Hsplit; apply PyStrFacts.join_split_colons|].
  split; [apply PyStrFacts.no_colons_not_occurs,
          PyStrFacts.last_segment_no_colons|].
  unfold column_name_of.
  split; [reflexivity|].
  split; [apply PyStrFacts.remove_char_filter|].
  split; [apply PyStrFacts.remove_char_gone|].
  split.
  - intros <-. apply PyStrFacts.remove_char_gone.
  - apply PyStrFacts.rstrip_is_remove.
Qed.

(** C6, as amended. When the row the runner answers has no item under
    the name of the SUM metric, the sum read from it is None and
    nothing is raised there: the [try] body ends normally, the handler
    does not run, and the steps behind the [try] are carried out on
    None. *)
Theorem C6_missing_key_carries_none test_case execution_date runner s
    col row s' :
  find_column (column_name_of (entityLink test_case)) (table runner)
    = Some col ->
  dispatch_query_select_first runner (SumFn col) s = (Ok (Some row), s') ->
  (forall value, (Metrics_SUM_name, value) ∉ row) ->
  fallible_block test_case runner s
  = (Ok PyNone, s', [EvQuery (SumFn col)])
  /\ column_values_sum_to_be_between test_case execution_date runner s
     = mkRun (to_outcome (evaluate test_case execution_date PyNone))
         s' [EvQuery (SumFn col)].
Proof.
  intros Hcol Hrow Hno.
  assert (Hblock : fallible_block test_case runner s
                   = (Ok PyNone, s', [EvQuery (SumFn col)])).
  { rewrite (fallible_block_found _ _ _ _ Hcol), Hrow.
    cbn [fst snd bind py_dict].
    now rewrite (dict_get_absent _ row _ Hno eq_refl). }
  split; [exact Hblock|]. now apply run_evaluated.
Qed.

(** C7. With the [try] body done, both bounds read and a number for
    the sum, the call returns a result whose message is
    "Found sum=<sum> vs. the expected min=<min>, max=<max>." with the
    texts of the sum and of the two bounds, whose timestamp is the
    date, and whose one result value is "sum" with the text of the
    sum. *)
Theorem C7_evaluated_result test_case execution_date runner s
    v s' evs lo hi :
  fallible_block test_case runner s = (Ok v, s', evs) ->
  first_bound "minValueForColSum" (parameterValues test_case) = Ok lo ->
  first_bound "maxValueForColSum" (parameterValues test_case) = Ok hi ->
  is_number v = true ->
  exists status,
    outcome (column_values_sum_to_be_between test_case execution_date
               runner s)
    = Returns (mkResult execution_date status
                 ("Found sum=" +:+ str v +:+ " vs. the expected min="
                  +:+ str_of_float lo +:+ ", max=" +:+ str_of_float hi
                  +:+ ".")
                 [mkResultValue "sum" (Some (str v))])
    /\ status <> Aborted.
Proof.
  intros Hblock Hlo Hhi Hnum.
  rewrite outcome_by_block, Hblock. cbn [fst].
  rewrite (evaluate_number _ _ _ _ _ Hlo Hhi Hnum), found_message_flat.
  eexists. split; [reflexivity|].
  destruct (float_le_val lo v) as [[|]|]; try easy.
  now destruct (val_le_float v hi) as [[|]|].
Qed.

(** C8, as amended. A call issues one query when the column is on the
    runner's table, whatever the call's end, and none when it is not
    (the Aborted result of a missing column comes without a query). *)
Theorem C8_one_query_if_column_found test_case execution_date runner s :
  queries_issued
    (events (column_values_sum_to_be_between test_case execution_date
               runner s))
  = match find_column (column_name_of (entityLink test_case))
            (table runner) with
    | Some _ => 1%nat
    | None => 0%nat
    end.
Proof.
  rewrite queries_by_block.
  destruct (find_column _ _) as [col|] eqn:Hcol.
  - now rewrite (fallible_block_found _ _ _ _ Hcol).
  - now rewrite (fallible_block_not_found _ _ _ Hcol).
Qed.

(** C9. With a runner whose answers do not depend on its session, two
    calls for the same test case end alike from any two sessions (so
    also one after the other) and for any two dates: both return, with
    the same status, message and result values, or both raise the
    same exception. *)
Theorem C9_same_inputs_same_verdict test_case runner d1 d2 s1 s2 :
  deterministic runner ->
  same_verdict
    (outcome (column_values_sum_to_be_between test_case d1 runner s1))
    (outcome (column_values_sum_to_be_between test_case d2 runner s2)).
Proof.
  intros Hdet. rewrite !outcome_by_block.
  rewrite (deterministic_block test_case runner s1 s2 Hdet).
  destruct (fallible_block test_case runner s2).1.1 as [v|err].
  - apply evaluate_same_verdict.
  - cbn. auto.
Qed.

(** C10. For a link without "::" the column name is the whole link
    with its ">" removed, and the lookup goes on with that name: when
    the table has no such column the call returns the Aborted result
    of a missing column and issues no query, and when it has one the
    call queries the sum of that column. *)
Theorem C10_link_without_separator test_case execution_date runner s :
  ~ PyStr.occurs "::" (entityLink test_case) ->
  let name := PyStr.remove_char ">" (entityLink test_case) in
  column_name_of (entityLink test_case) = name
  /\ (find_column name (table runner) = None ->
      column_values_sum_to_be_between test_case execution_date runner s
      = mkRun
          (Returns (mkResult execution_date Aborted
             ("Error computing " +:+ tc_name test_case +:+ " for "
              +:+ tablename (table runner)
              +:+ ": Cannot find the configured column " +:+ name
              +:+ " for test case " +:+ tc_name test_case)
             [mkResultValue "sum" None]))
          s
          [EvLogDebug;
           EvLogWarning
             ("Error computing " +:+ tc_name test_case +:+ " for "
              +:+ tablename (table runner)
              +:+ ": Cannot find the configured column " +:+ name
              +:+ " for test case " +:+ tc_name test_case)])
  /\ (forall col,
        find_column name (table runner) = Some col ->
        exists logs,
          events (column_values_sum_to_be_between test_case
                    execution_date runner s)
          = EvQuery (SumFn col) :: logs).
Proof.
  intros Hno name.
  assert (Hname : column_name_of (entityLink test_case) = name).
  { unfold column_name_of.
    apply PyStrFacts.no_colons_not_occurs in Hno.
    now rewrite (PyStrFacts.split_colons_whole _ Hno). }
  split; [exact Hname|]. split.
  - intros Hnone. rewrite <- Hname in Hnone.
    rewrite (run_aborted _ _ _ _ _ _ _
               (fallible_block_not_found _ _ _ Hnone)).
    now rewrite Hname.
  - intros col Hcol. rewrite <- Hname in Hcol.
    pose proof (fallible_block_found _ _ s _ Hcol) as Hblock.
    unfold column_values_sum_to_be_between. rewrite Hblock.
    destruct (bind _ _); cbn; eauto.
Qed.

End Properties.

(** ** The properties at concrete inputs *)

(** The scenarios of the specification, run in the [Decimal]
    environment. *)
Module Scenarios.
Import Examples.

Example sum_inside_bounds :
  run (amount_between "100" "200") (summing (PyInt 150))
  = Returns (mkResult 1650000000 Success
               "Found sum=150 vs. the expected min=100.0, max=200.0."
               [mkResultValue "sum" (Some "150")]).
Proof. vm_compute. reflexivity. Qed.

Example sum_below_bounds :
  run (amount_between "100" "200") (summing (PyInt 95))
  = Returns (mkResult 1650000000 Failed
               "Found sum=95 vs. the expected min=100.0, max=200.0."
               [mkResultValue "sum" (Some "95")]).
Proof. vm_compute. reflexivity. Qed.

Example column_missing :
  run (mkTestCase "amount_sum"
         "<#E::table::shop.public.orders::nonexistent>" (bounds "100" "200"))
      (summing (PyInt 150))
  = Returns (mkResult 1650000000 Aborted
               ("Error computing amount_sum for orders: Cannot find the "
                +:+ "configured column nonexistent for test case amount_sum")
               [mkResultValue "sum" None]).
Proof. vm_compute. reflexivity. Qed.

Example runner_fails :
  run (amount_between "100" "200") (faulting "connection refused")
  = Returns (mkResult 1650000000 Aborted
               "Error computing amount_sum for orders: connection refused"
               [mkResultValue "sum" None]).
Proof. vm_compute. reflexivity. Qed.

Example sum_on_lower_bound :
  run (amount_between "100" "200") (summing (PyInt 100))
  = Returns (mkResult 1650000000 Success
               "Found sum=100 vs. the expected min=100.0, max=200.0."
               [mkResultValue "sum" (Some "100")]).
Proof. vm_compute. reflexivity. Qed.

Example float_sum_on_upper_bound :
  run (amount_between "0.5" "200.25")
      (summing (PyFloat (float_lit "200.25")))
  = Returns (mkResult 1650000000 Success
               "Found sum=200.25 vs. the expected min=0.5, max=200.25."
               [mkResultValue "sum" (Some "200.25")]).
Proof. vm_compute. reflexivity. Qed.

(** An integer sum is compared exactly: [2^53 + 1] is above the float
    [2^53], which is the float nearest to it. *)
Example integer_sum_is_not_rounded :
  run (amount_between "0" "9007199254740992")
      (summing (PyInt 9007199254740993))
  = Returns (mkResult 1650000000 Failed
               ("Found sum=9007199254740993 vs. the expected min=0.0, "
                +:+ "max=9007199254740992.0.")
               [mkResultValue "sum" (Some "9007199254740993")]).
Proof. vm_compute. reflexivity. Qed.

(** A later parameter of the same name is not looked at. *)
Example first_match_only :
  run (mkTestCase "amount_sum" "<#E::table::shop.public.orders::amount>"
         (mkParam "minValueForColSum" "abc" :: bounds "100" "200"))
      (summing (PyInt 150))
  = Raises ValueError.
Proof. vm_compute. reflexivity. Qed.

(** With a runner whose answers depend on its session two calls may
    end differently. *)
Example counting_runner_verdicts_differ :
  testCaseStatus_of
    (outcome (column_values_sum_to_be_between (H := Decimal.env)
                (amount_between "100" "200") 0 counting 150))
  = Some Success
  /\ testCaseStatus_of
       (outcome (column_values_sum_to_be_between (H := Decimal.env)
                   (amount_between "100" "200") 0 counting 151))
     = Some Success
  /\ testCaseStatus_of
       (outcome (column_values_sum_to_be_between (H := Decimal.env)
                   (amount_between "100" "200") 0 counting 201))
     = Some Failed.
Proof. vm_compute. auto. Qed.

End Scenarios.

(** C1 fails for a test case without parameters: the column is found,
    the query answers 150, and reading the lower bound raises
    StopIteration out of the call. *)
Lemma C1_counterexample :
  outcome (column_values_sum_to_be_between (H := Decimal.env)
             Examples.unbounded Examples.when
             (Examples.summing (PyInt 150)) tt)
  = Raises StopIteration
  /\ ~ exists res,
         outcome (column_values_sum_to_be_between (H := Decimal.env)
                    Examples.unbounded Examples.when
                    (Examples.summing (PyInt 150)) tt)
         = Returns res.
Proof.
  assert (Hrun : outcome (column_values_sum_to_be_between (H := Decimal.env)
                            Examples.unbounded Examples.when
                            (Examples.summing (PyInt 150)) tt)
                 = Raises StopIteration) by (vm_compute; reflexivity).
  split; [exact Hrun|]. rewrite Hrun. intros [res Hres]. discriminate.
Qed.

(** C1 as amended, at the first scenario: 150 within 100 and 200. *)
Lemma C1_witness :
  exists res,
    outcome (column_values_sum_to_be_between (H := Decimal.env)
               (Examples.amount_between "100" "200") Examples.when
               (Examples.summing (PyInt 150)) tt)
    = Returns res.
Proof.
  apply (@C1_returns_when_evaluable Decimal.env unit
           (Examples.amount_between "100" "200") Examples.when
           (Examples.summing (PyInt 150)) tt).
  right.
  exists (PyInt 150), (Examples.float_lit "100"), (Examples.float_lit "200").
  repeat split; vm_compute; reflexivity.
Defined.

(** C2 at the test case without parameters. *)
Lemma C2_witness :
  (exists e,
     outcome (column_values_sum_to_be_between (H := Decimal.env)
                Examples.unbounded Examples.when
                (Examples.summing (PyInt 150)) tt)
     = Raises e)
  /\ (forall res,
        outcome (column_values_sum_to_be_between (H := Decimal.env)
                   Examples.unbounded Examples.when
                   (Examples.summing (PyInt 150)) tt)
        <> Returns res)
  /\ (~ has_param "minValueForColSum" (parameterValues Examples.unbounded) ->
      outcome (column_values_sum_to_be_between (H := Decimal.env)
                 Examples.unbounded Examples.when
                 (Examples.summing (PyInt 150)) tt)
      = Raises StopIteration).
Proof.
  apply (@C2_missing_bound_raises Decimal.env unit Examples.unbounded
           Examples.when (Examples.summing (PyInt 150)) tt
           (mkColumn "amount") [("sum", PyInt 150)] tt).
  - reflexivity.
  - reflexivity.
  - left. apply no_param_find. reflexivity.
Defined.

(** C3 at a sum on the lower bound: 100 within 100 and 200. *)
Lemma C3_witness :
  exists res,
    outcome (column_values_sum_to_be_between (H := Decimal.env)
               (Examples.amount_between "100" "200") Examples.when
               (Examples.summing (PyInt 100)) tt)
    = Returns res
    /\ testCaseStatus res = Success.
Proof.
  destruct (@C3_status_is_inclusive_range Decimal.env unit
              (Examples.amount_between "100" "200") Examples.when
              (Examples.summing (PyInt 100)) tt (PyInt 100) tt
              [EvQuery (SumFn (mkColumn "amount"))])
    as [_ Hrange].
  - vm_compute. reflexivity.
  - destruct (Hrange (Examples.float_lit "100") (Examples.float_lit "200"))
      as (res & Hres & _ & _ & Hlower & _).
    + vm_compute. reflexivity.
    + vm_compute. reflexivity.
    + reflexivity.
    + exists res. split; [exact Hres|].
      apply Hlower; vm_compute; reflexivity.
Defined.

(** C4 at a runner whose query fails. *)
Lemma C4_witness :
  outcome (column_values_sum_to_be_between (H := Decimal.env)
             (Examples.amount_between "100" "200") Examples.when
             (Examples.faulting "connection refused") tt)
  = Returns (mkResult Examples.when Aborted
               "Error computing amount_sum for orders: connection refused"
               [mkResultValue "sum" None])
  /\ (forall params,
        outcome (column_values_sum_to_be_between (H := Decimal.env)
                   (with_parameters (Examples.amount_between "100" "200")
                      params)
                   Examples.when (Examples.faulting "connection refused") tt)
        = outcome (column_values_sum_to_be_between (H := Decimal.env)
                     (Examples.amount_between "100" "200") Examples.when
                     (Examples.faulting "connection refused") tt)).
Proof.
  apply (@C4_failure_is_aborted Decimal.env unit
           (Examples.amount_between "100" "200") Examples.when
           (Examples.faulting "connection refused") tt
           (mkExc RunnerError "connection refused")).
  apply QueryRaised with (mkColumn "amount"); reflexivity.
Defined.

(** C5 fails for a last segment with a [>] inside: the code looks for
    the column [ab], stripping the end of the segment gives [a>b]. *)
Lemma C5_counterexample :
  column_name_of Examples.odd_link = "ab"
  /\ PyStr.rstrip_char ">"
       (PyStr.last_segment (PyStr.split_colons Examples.odd_link))
     = "a>b"
  /\ column_name_of Examples.odd_link
     <> PyStr.rstrip_char ">"
          (PyStr.last_segment (PyStr.split_colons Examples.odd_link)).
Proof. repeat split; [vm_compute; reflexivity ..|vm_compute; discriminate]. Qed.

(** C6 fails for a runner whose row has no [sum]: with both bounds
    given, comparing the lower bound with None raises TypeError out of
    the call. *)
Lemma C6_counterexample :
  outcome (column_values_sum_to_be_between (H := Decimal.env)
             (Examples.amount_between "100" "200") Examples.when
             Examples.unlabelled tt)
  = Raises TypeError
  /\ ~ exists res,
         outcome (column_values_sum_to_be_between (H := Decimal.env)
                    (Examples.amount_between "100" "200") Examples.when
                    Examples.unlabelled tt)
         = Returns res.
Proof.
  assert (Hrun : outcome (column_values_sum_to_be_between (H := Decimal.env)
                            (Examples.amount_between "100" "200") Examples.when
                            Examples.unlabelled tt)
                 = Raises TypeError) by (vm_compute; reflexivity).
  split; [exact Hrun|]. rewrite Hrun. intros [res Hres]. discriminate.
Qed.

(** C6 as amended, at the same runner. *)
Lemma C6_witness :
  fallible_block (H := Decimal.env) (Examples.amount_between "100" "200")
    Examples.unlabelled tt
  = (Ok PyNone, tt, [EvQuery (SumFn (mkColumn "amount"))])
  /\ column_values_sum_to_be_between (H := Decimal.env)
       (Examples.amount_between "100" "200") Examples.when
       Examples.unlabelled tt
     = mkRun (to_outcome
                (evaluate (H := Decimal.env)
                   (Examples.amount_between "100" "200") Examples.when PyNone))
         tt [EvQuery (SumFn (mkColumn "amount"))].
Proof.
  apply (@C6_missing_key_carries_none Decimal.env unit
           (Examples.amount_between "100" "200") Examples.when
           Examples.unlabelled tt (mkColumn "amount")
           [("count", PyInt 3)] tt).
  - reflexivity.
  - reflexivity.
  - intros value Hin. apply list_elem_of_singleton in Hin. discriminate.
Defined.

(** C7 at the first scenario: 150 within 100 and 200. *)
Lemma C7_witness :
  exists status,
    outcome (column_values_sum_to_be_between (H := Decimal.env)
               (Examples.amount_between "100" "200") Examples.when
               (Examples.summing (PyInt 150)) tt)
    = Returns (mkResult Examples.when status
                 "Found sum=150 vs. the expected min=100.0, max=200.0."
                 [mkResultValue "sum" (Some "150")])
    /\ status <> Aborted.
Proof.
  apply (@C7_evaluated_result Decimal.env unit
           (Examples.amount_between "100" "200") Examples.when
           (Examples.summing (PyInt 150)) tt (PyInt 150) tt
           [EvQuery (SumFn (mkColumn "amount"))]
           (Examples.float_lit "100") (Examples.float_lit "200")).
  - vm_compute. reflexivity.
  - vm_compute. reflexivity.
  - vm_compute. reflexivity.
  - reflexivity.
Defined.

(** C8 fails on the Aborted path of a missing column: the call returns
    Aborted and has issued no query. *)
Lemma C8_counterexample :
  testCaseStatus_of
    (outcome (column_values_sum_to_be_between (H := Decimal.env)
                Examples.stray Examples.when (Examples.summing (PyInt 150)) tt))
  = Some Aborted
  /\ queries_issued
       (events (column_values_sum_to_be_between (H := Decimal.env)
                  Examples.stray Examples.when (Examples.summing (PyInt 150)) tt))
     = 0%nat.
Proof. split; vm_compute; reflexivity. Qed.

(** C9 at a runner that counts its queries and always answers 150: a
    call in session 0 at one date and a call in session 7 at another. *)
Lemma C9_witness :
  same_verdict
    (outcome (column_values_sum_to_be_between (H := Decimal.env)
                (Examples.amount_between "100" "200") 1650000000
                Examples.metered 0))
    (outcome (column_values_sum_to_be_between (H := Decimal.env)
                (Examples.amount_between "100" "200") 1650086400
                Examples.metered 7)).
Proof.
  apply (@C9_same_inputs_same_verdict Decimal.env Z
           (Examples.amount_between "100" "200") Examples.metered
           1650000000 1650086400 0 7).
  intros q s1 s2. reflexivity.
Defined.

(** C10 at the link [amount>]: the column [amount] is looked up and
    queried. *)
Lemma C10_witness :
  column_name_of (entityLink Examples.bare) = "amount"
  /\ exists logs,
       events (column_values_sum_to_be_between (H := Decimal.env)
                 Examples.bare Examples.when (Examples.summing (PyInt 150)) tt)
       = EvQuery (SumFn (mkColumn "amount")) :: logs.
Proof.
  destruct (@C10_link_without_separator Decimal.env unit Examples.bare
              Examples.when (Examples.summing (PyInt 150)) tt)
    as (Hname & _ & Hquery).
  - apply PyStrFacts.no_colons_not_occurs. reflexivity.
  - split; [exact Hname|]. apply Hquery. reflexivity.
Defined.

(** ** Further facts: the ordering of numbers *)
Module NumFacts.

Lemma is_le_compare (x y : Z) : is_le (Some (x ?= y)) = true <-> x <= y.
Proof.
  unfold Z.le. destruct (x ?= y); cbn; split; congruence.
Qed.

(** Two dyadic numbers brought to a common exponent [e]. *)
Lemma dyadic_le_at (e ma ea mb eb : Z) :
  e <= ea -> e <= eb ->
  (num_le (Dyadic ma ea) (Dyadic mb eb) = true
   <-> ma * 2 ^ (ea - e) <= mb * 2 ^ (eb - e)).
Proof.
  intros Ha Hb. unfold num_le. cbn [num_cmp]. rewrite is_le_compare.
  set (m := Z.min ea eb).
  assert (Hm : e <= m) by (unfold m; lia).
  assert (Hma : m <= ea) by (unfold m; lia).
  assert (Hmb : m <= eb) by (unfold m; lia).
  clearbody m.
  replace (ea - e) with ((ea - m) + (m - e)) by lia.
  replace (eb - e) with ((eb - m) + (m - e)) by lia.
  rewrite !Z.pow_add_r by lia.
  assert (Hpos : 0 < 2 ^ (m - e)) by (apply Z.pow_pos_nonneg; lia).
  rewrite !Z.mul_assoc. split; intros Hle.
  - now apply Z.mul_le_mono_nonneg_r; [lia|].
  - now apply Z.mul_le_mono_pos_r in Hle.
Qed.

(** The ordering is transitive: NaN is below and above nothing. *)
Lemma num_le_trans (a b c : Extended) :
  num_le a b = true -> num_le b c = true -> num_le a c = true.
Proof.
  destruct a as [|na|ma ea], b as [|nb|mb eb], c as [|nc|mc ec];
    try (cbn; congruence);
    try (destruct na; cbn; congruence);
    try (destruct nb; cbn; congruence);
    try (destruct nc; cbn; congruence);
    try (destruct na, nb; cbn; congruence);
    try (destruct nb, nc; cbn; congruence);
    try (destruct na, nc; cbn; congruence);
    try (destruct na, nb, nc; cbn; congruence).
  set (e := Z.min ea (Z.min eb ec)).
  rewrite (dyadic_le_at e ma ea mb eb) by (unfold e; lia).
  rewrite (dyadic_le_at e mb eb mc ec) by (unfold e; lia).
  rewrite (dyadic_le_at e ma ea mc ec) by (unfold e; lia).
  lia.
Qed.

(** A NaN is in no order with anything. *)
Lemma num_le_nan_l (b : Extended) : num_le NaN b = false.
Proof. reflexivity. Qed.

Lemma num_le_nan_r (a : Extended) : num_le a NaN = false.
Proof. now destruct a. Qed.

(** The two comparisons of the validator, read on numbers. *)
Lemma float_le_val_number (lo : spec_float) (v : PyVal) (a : Extended) :
  number v = Some a ->
  float_le_val lo v = Ok (num_le (float_value lo) a).
Proof. unfold float_le_val, float_cmp_val. now intros ->. Qed.

Lemma val_le_float_number (v : PyVal) (hi : spec_float) (a : Extended) :
  number v = Some a ->
  val_le_float v hi = Ok (num_le a (float_value hi)).
Proof. unfold val_le_float, val_cmp_float. now intros ->. Qed.

Lemma is_number_number (v : PyVal) :
  is_number v = true <-> exists a, number v = Some a.
Proof.
  destruct v; cbn; split; try congruence; eauto; intros [a Ha]; congruence.
Qed.

End NumFacts.

(** ** Further facts: links of the usual form *)
Module LinkFacts.
Import PyStr.

Lemma append_cons (a : ascii) (s t : string) :
  String a s +:+ t = String a (s +:+ t).
Proof. reflexivity. Qed.

Lemma append_nil_r (s : string) : s +:+ EmptyString = s.
Proof.
  induction s as [|a s IH]; [reflexivity|]. now rewrite append_cons, IH.
Qed.

Lemma ends_with_colon_step (a b : ascii) (s : string) :
  ends_with_colon (String a (String b s)) = ends_with_colon (String b s).
Proof. reflexivity. Qed.

Lemma push_front_app (ch : ascii) (segs more : list string) :
  segs <> [] ->
  push_front ch (segs ++ more) = (push_front ch segs ++ more)%list.
Proof. now destruct segs. Qed.

(** A separator behind a prefix that does not end with a colon is found
    by the scan, and splits there. *)
Lemma split_colons_app (prefix rest : string) :
  ends_with_colon prefix = false ->
  split_colons (prefix +:+ "::" +:+ rest)
  = (split_colons prefix ++ split_colons rest)%list.
Proof.
  induction prefix as [|a|a b s IHs IHbs] using PyStrFacts.string_pair_ind.
  - reflexivity.
  - cbn [ends_with_colon]. intros Ha.
    change (split_colons (String a (String ":" (String ":" rest)))
            = (push_front a [EmptyString] ++ split_colons rest)%list).
    rewrite PyStrFacts.split_colons_step, Ha. reflexivity.
  - rewrite ends_with_colon_step. intros Hend.
    change (String a (String b s) +:+ "::" +:+ rest)
      with (String a (String b (s +:+ "::" +:+ rest))).
    rewrite !PyStrFacts.split_colons_step.
    destruct (Ascii.eqb a ":" && Ascii.eqb b ":") eqn:Hsep.
    + destruct s as [|c s].
      { apply andb_prop in Hsep as [_ Hb]. cbn in Hend. congruence. }
      rewrite IHs by exact Hend. reflexivity.
    + change (String b (s +:+ "::" +:+ rest))
        with (String b s +:+ "::" +:+ rest).
      rewrite (IHbs Hend).
      apply push_front_app, PyStrFacts.split_colons_not_nil.
Qed.

Lemma has_colons_snoc (name : string) (ch : ascii) :
  Ascii.eqb ch ":" = false ->
  has_colons (name +:+ String ch EmptyString) = has_colons name.
Proof.
  intros Hch.
  induction name as [|a|a b s IHs IHbs] using PyStrFacts.string_pair_ind.
  - reflexivity.
  - change (has_colons (String a (String ch EmptyString)) = false).
    rewrite PyStrFacts.has_colons_step, Hch. now rewrite andb_false_r.
  - change (String a (String b s) +:+ String ch EmptyString)
      with (String a (String b (s +:+ String ch EmptyString))).
    rewrite !PyStrFacts.has_colons_step.
    change (String b (s +:+ String ch EmptyString))
      with (String b s +:+ String ch EmptyString).
    now rewrite IHbs.
Qed.

Lemma remove_char_app (ch : ascii) (s t : string) :
  remove_char ch (s +:+ t) = remove_char ch s +:+ remove_char ch t.
Proof.
  induction s as [|a s IH]; [reflexivity|].
  rewrite append_cons. cbn [remove_char].
  destruct (Ascii.eqb a ch); [exact IH|]. now rewrite append_cons, IH.
Qed.

Lemma last_segment_snoc (segs : list string) (seg : string) :
  last_segment (segs ++ [seg]) = seg.
Proof. apply List.last_last. Qed.

End LinkFacts.

(** ** Further facts about the validator's steps *)
Section MoreFacts.

Context `{Env} {Session : Type}.
Implicit Types (test_case : TestCase) (execution_date : datetime)
  (runner : QueryRunner Session) (s : Session) (v : PyVal).

Lemma session_by_block test_case execution_date runner s :
  session (column_values_sum_to_be_between test_case execution_date runner s)
  = (fallible_block test_case runner s).1.2.
Proof.
  unfold column_values_sum_to_be_between.
  now destruct (fallible_block test_case runner s) as [[[v|err] s'] evs].
Qed.

Lemma events_by_block test_case execution_date runner s :
  events (column_values_sum_to_be_between test_case execution_date runner s)
  = ((fallible_block test_case runner s).2
     ++ match (fallible_block test_case runner s).1.1 with
        | Raise err =>
            [EvLogDebug; EvLogWarning (abort_message test_case runner err)]
        | Ok _ => []
        end)%list.
Proof.
  unfold column_values_sum_to_be_between.
  destruct (fallible_block test_case runner s) as [[[v|err] s'] evs];
    cbn; [now rewrite List.app_nil_r|reflexivity].
Qed.

(** The events of the [try] body are queries. *)
Lemma fallible_block_events test_case runner s :
  (fallible_block test_case runner s).2
  = match find_column (column_name_of (entityLink test_case))
            (table runner) with
    | Some col => [EvQuery (SumFn col)]
    | None => []
    end.
Proof.
  destruct (find_column _ _) as [col|] eqn:Hcol.
  - now rewrite (fallible_block_found _ _ _ _ Hcol).
  - now rewrite (fallible_block_not_found _ _ _ Hcol).
Qed.

(** What [find_column] finds: the first column of that name. *)
Lemma find_column_first (name : string) (t : Table) (col : Column) :
  find_column name t = Some col ->
  col_name col = name
  /\ exists before after,
       columns t = (before ++ col :: after)%list
       /\ Forall (fun c => col_name c <> name) before.
Proof.
  unfold find_column. induction (columns t) as [|c cols IH]; [discriminate|].
  cbn [List.find]. destruct (String.eqb (col_name c) name) eqn:Hc.
  - intros [= <-]. apply String.eqb_eq in Hc. split; [exact Hc|].
    now exists [], cols.
  - intros Hfind. destruct (IH Hfind) as (Hname & before & after & -> & Hall).
    split; [exact Hname|]. exists (c :: before), after.
    split; [reflexivity|]. constructor; [|exact Hall].
    now apply String.eqb_neq.
Qed.




(** The first parameter of a name decides the bound. *)
Lemma first_bound_first name before param after :
  ~ has_param name before ->
  param_name param = name ->
  first_bound name (before ++ param :: after)
  = match float_of_str (param_value param) with
    | Some x => Ok x
    | None => Raise ValueError
    end.
Proof.
  intros Hno Hname. unfold first_bound.
  assert (Hfind :
    List.find (fun p => String.eqb (param_name p) name)
      (before ++ param :: after) = Some param).
  { induction before as [|p before IH].
    - cbn. now rewrite Hname, String.eqb_refl.
    - cbn. destruct (String.eqb (param_name p) name) eqn:Hp.
      + destruct Hno. exists p. split; [now left|]. now apply String.eqb_eq.
      + apply IH. intros (q & Hq & Hqn). apply Hno. exists q.
        split; [now right|exact Hqn]. }
  now rewrite Hfind.
Qed.

Lemma first_bound_app name params extra :
  has_param name params ->
  first_bound name (params ++ extra) = first_bound name params.
Proof.
  rewrite has_param_find. intros [param Hfind]. unfold first_bound.
  assert (Happ :
    List.find (fun p => String.eqb (param_name p) name) (params ++ extra)
    = Some param).
  { induction params as [|p params IH]; [discriminate|].
    cbn in *. destruct (String.eqb (param_name p) name); [exact Hfind|].
    now apply IH. }
  now rewrite Happ, Hfind.
Qed.

Lemma first_bound_filter name params :
  is_bound_param (mkParam name EmptyString) = true ->
  first_bound name (List.filter is_bound_param params)
  = first_bound name params.
Proof.
  intros Hname. unfold first_bound.
  assert (Hfind :
    List.find (fun p => String.eqb (param_name p) name)
      (List.filter is_bound_param params)
    = List.find (fun p => String.eqb (param_name p) name) params).
  { induction params as [|p params IH]; [reflexivity|].
    cbn [List.filter List.find].
    destruct (String.eqb (param_name p) name) eqn:Hp.
    - apply String.eqb_eq in Hp.
      assert (Hbound : is_bound_param p = true).
      { unfold is_bound_param in *. cbn in Hname. now rewrite Hp. }
      rewrite Hbound. cbn [List.find].
      apply String.eqb_eq in Hp. now rewrite Hp.
    - destruct (is_bound_param p); [|exact IH].
      cbn [List.find]. now rewrite Hp. }
  now rewrite Hfind.
Qed.

(** What follows the [try] reads the parameters through the two bounds
    only. *)
Lemma evaluate_by_bounds test_case params execution_date v :
  first_bound "minValueForColSum" params
  = first_bound "minValueForColSum" (parameterValues test_case) ->
  first_bound "maxValueForColSum" params
  = first_bound "maxValueForColSum" (parameterValues test_case) ->
  evaluate (with_parameters test_case params) execution_date v
  = evaluate test_case execution_date v.
Proof.
  intros Hlo Hhi. unfold evaluate. cbn [parameterValues with_parameters].
  now rewrite Hlo, Hhi.
Qed.

Lemma run_by_bounds test_case params execution_date runner s :
  first_bound "minValueForColSum" params
  = first_bound "minValueForColSum" (parameterValues test_case) ->
  first_bound "maxValueForColSum" params
  = first_bound "maxValueForColSum" (parameterValues test_case) ->
  column_values_sum_to_be_between (with_parameters test_case params)
    execution_date runner s
  = column_values_sum_to_be_between test_case execution_date runner s.
Proof.
  intros Hlo Hhi. unfold column_values_sum_to_be_between.
  rewrite fallible_block_parameters.
  destruct (fallible_block test_case runner s) as [[[v|err] s'] evs];
    [|reflexivity].
  now rewrite (evaluate_by_bounds _ _ _ _ Hlo Hhi).
Qed.

(** With the same link, a [try] body that gives a sum gives it for any
    test case. *)
Lemma fallible_block_same_link test_case test_case' runner s v s' evs :
  entityLink test_case' = entityLink test_case ->
  fallible_block test_case runner s = (Ok v, s', evs) ->
  fallible_block test_case' runner s = (Ok v, s', evs).
Proof.
  intros Hlink.
  destruct (find_column (column_name_of (entityLink test_case))
              (table runner)) as [col|] eqn:Hcol.
  - rewrite (fallible_block_found _ _ _ _ Hcol).
    rewrite <- Hlink in Hcol. now rewrite (fallible_block_found _ _ _ _ Hcol).
  - now rewrite (fallible_block_not_found _ _ _ Hcol).
Qed.

(** Items that are not labelled [key] leave the entry of [key] as it
    is. *)
Lemma fold_insert_other (key : string) (items : Row) :
  (forall value, (key, value) ∉ items) ->
  forall d : gmap string PyVal,
    List.fold_left (fun d kv => <[kv.1 := kv.2]> d) items d !! key
    = d !! key.
Proof.
  induction items as [|[k value] items IH]; intros Hno d; [reflexivity|].
  cbn [List.fold_left]. rewrite IH.
  - cbn. apply lookup_insert_ne. intros ->. apply (Hno value). now left.
  - intros value' Hin. apply (Hno value'). now right.
Qed.

(** [d.get(key)] is the value of the last item labelled [key]. *)
Lemma dict_get_last key v (before after : Row) d :
  (forall value, (key, value) ∉ after) ->
  py_dict (Some (before ++ (key, v) :: after)%list) = Ok d ->
  dict_get d key = v.
Proof.
  intros Hno [= <-]. unfold dict_get.
  rewrite List.fold_left_app. cbn [List.fold_left].
  rewrite (fold_insert_other key after Hno). cbn.
  now rewrite lookup_insert_eq.
Qed.

End MoreFacts.

(** ** Further properties of the validator *)
Section MoreProperties.

Context `{Env} {Session : Type}.
Implicit Types (test_case : TestCase) (execution_date : datetime)
  (runner : QueryRunner Session) (s : Session) (v : PyVal).


(** X2. The lower bound is read first, from the first parameter named
    minValueForColSum: when the value of that parameter does not read
    as a float the call raises ValueError, whatever follows it in the
    parameters (a second minValueForColSum, the upper bound) and
    whatever the sum is. *)
Theorem X2_unreadable_lower_bound test_case execution_date runner s
    v s' evs before param after :
  fallible_block test_case runner s = (Ok v, s', evs) ->
  parameterValues test_case = (before ++ param :: after)%list ->
  ~ has_param "minValueForColSum" before ->
  param_name param = "minValueForColSum" ->
  float_of_str (param_value param) = None ->
  outcome (column_values_sum_to_be_between test_case execution_date runner s)
  = Raises ValueError.
Proof.
  intros Hblock Hparams Hno Hname Hvalue.
  rewrite outcome_by_block, Hblock. cbn [fst]. unfold evaluate.
  now rewrite Hparams, (first_bound_first _ _ _ _ Hno Hname), Hvalue.
Qed.

(** X3. When both bounds are among the parameters, parameters put
    behind them change nothing: neither the outcome, nor the session,
    nor the events. *)
Theorem X3_parameters_behind_are_ignored test_case execution_date runner s
    extra :
  has_param "minValueForColSum" (parameterValues test_case) ->
  has_param "maxValueForColSum" (parameterValues test_case) ->
  column_values_sum_to_be_between
    (with_parameters test_case (parameterValues test_case ++ extra))
    execution_date runner s
  = column_values_sum_to_be_between test_case execution_date runner s.
Proof.
  intros Hmin Hmax.
  apply run_by_bounds; now apply first_bound_app.
Qed.

(** X4. Parameters of other names than minValueForColSum and
    maxValueForColSum play no part, wherever they stand: without them
    the call does the same. *)
Theorem X4_other_parameters_are_ignored test_case execution_date runner s :
  column_values_sum_to_be_between
    (with_parameters test_case
       (List.filter is_bound_param (parameterValues test_case)))
    execution_date runner s
  = column_values_sum_to_be_between test_case execution_date runner s.
Proof. apply run_by_bounds; now apply first_bound_filter. Qed.

(** X5. Every result the call returns has the date for timestamp and
    exactly one result value, named "sum"; that value is missing
    exactly when the status is Aborted, which is exactly when the [try]
    body failed. *)
Theorem X5_result_shape test_case execution_date runner s res :
  outcome (column_values_sum_to_be_between test_case execution_date runner s)
  = Returns res ->
  timestamp res = execution_date
  /\ (exists value,
        testResultValue res = [mkResultValue "sum" value]
        /\ (value = None <-> testCaseStatus res = Aborted))
  /\ (testCaseStatus res = Aborted
      <-> exists err, block_failure test_case runner s err).
Proof.
  rewrite outcome_by_block.
  destruct (fallible_block test_case runner s).1.1 as [v|err] eqn:Hblock.
  - destruct (evaluate test_case execution_date v) as [res'|e] eqn:Heval;
      [|discriminate].
    intros [= ->].
    destruct (evaluate_returns _ _ _ _ Heval)
      as (Hstatus & lo & hi & Hlo & Hhi & Hnum).
    rewrite (evaluate_number _ _ _ _ _ Hlo Hhi Hnum) in Heval.
    injection Heval as <-. cbn [timestamp testResultValue testCaseStatus] in *.
    split; [reflexivity|]. split.
    + eexists. split; [reflexivity|]. split; [discriminate|].
      intros Habs. now destruct Hstatus.
    + split; [intros Habs; now destruct Hstatus|].
      intros [err Hfail]. apply fallible_block_raises in Hfail. congruence.
  - intros [= <-]. cbn. split; [reflexivity|]. split.
    + now exists None.
    + split; [|reflexivity]. intros _. exists err.
      now apply fallible_block_raises.
Qed.

(** X6. The logger is used on the Aborted path only: there it gets one
    debug record and then one warning whose text is the message of the
    returned result; a call that returns Success or Failed, or that
    raises, logs nothing. *)
Theorem X6_log_records test_case execution_date runner s :
  List.filter is_log
    (events (column_values_sum_to_be_between test_case execution_date
               runner s))
  = match outcome (column_values_sum_to_be_between test_case execution_date
                     runner s) with
    | Returns res =>
        match testCaseStatus res with
        | Aborted => [EvLogDebug; EvLogWarning (result res)]
        | _ => []
        end
    | Raises _ => []
    end.
Proof.
  rewrite events_by_block, outcome_by_block, fallible_block_events.
  rewrite List.filter_app.
  assert (Hqueries :
    List.filter is_log
      match find_column (column_name_of (entityLink test_case))
              (table runner) with
      | Some col => [EvQuery (SumFn col)]
      | None => []
      end = []) by now destruct (find_column _ _).
  rewrite Hqueries. cbn [app].
  destruct (fallible_block test_case runner s).1.1 as [v|err];
    [|reflexivity].
  destruct (evaluate test_case execution_date v) as [res|e] eqn:Heval;
    [|reflexivity].
  apply evaluate_returns in Heval as [Hstatus _]. cbn.
  now destruct (testCaseStatus res).
Qed.

(** X7. With the column on the table, the one query of the call is the
    SUM of the first column whose name is the link's column name, and
    the session after the call is the one that query leaves. With the
    column missing no query is issued and the session is the one the
    call started in. *)
Theorem X7_query_and_session test_case execution_date runner s :
  match find_column (column_name_of (entityLink test_case))
          (table runner) with
  | Some col =>
      col_name col = column_name_of (entityLink test_case)
      /\ (exists before after,
            columns (table runner) = (before ++ col :: after)%list
            /\ Forall (fun c =>
                 col_name c <> column_name_of (entityLink test_case)) before)
      /\ List.filter is_query
           (events (column_values_sum_to_be_between test_case
                      execution_date runner s))
         = [EvQuery (SumFn col)]
      /\ session (column_values_sum_to_be_between test_case execution_date
                    runner s)
         = (dispatch_query_select_first runner (SumFn col) s).2
  | None =>
      List.filter is_query
        (events (column_values_sum_to_be_between test_case execution_date
                   runner s))
      = []
      /\ session (column_values_sum_to_be_between test_case execution_date
                    runner s)
         = s
  end.
Proof.
  rewrite events_by_block, session_by_block, List.filter_app.
  assert (Hlogs :
    List.filter is_query
      match (fallible_block test_case runner s).1.1 with
      | Raise err =>
          [EvLogDebug; EvLogWarning (abort_message test_case runner err)]
      | Ok _ => []
      end = [])
    by now destruct (fallible_block test_case runner s).1.1.
  rewrite Hlogs, List.app_nil_r.
  destruct (find_column _ _) as [col|] eqn:Hcol.
  - destruct (find_column_first _ _ _ Hcol) as [Hname Hfirst].
    rewrite (fallible_block_found _ _ _ _ Hcol). auto.
  - now rewrite (fallible_block_not_found _ _ _ Hcol).
Qed.

(** X8. A sum that is a NaN is Failed, whatever the bounds are. *)
Theorem X8_nan_sum_is_failed test_case execution_date runner s
    v s' evs lo hi :
  fallible_block test_case runner s = (Ok v, s', evs) ->
  first_bound "minValueForColSum" (parameterValues test_case) = Ok lo ->
  first_bound "maxValueForColSum" (parameterValues test_case) = Ok hi ->
  number v = Some NaN ->
  exists res,
    outcome (column_values_sum_to_be_between test_case execution_date
               runner s) = Returns res
    /\ testCaseStatus res = Failed.
Proof.
  intros Hblock Hlo Hhi Hnan.
  assert (Hnum : is_number v = true)
    by (apply NumFacts.is_number_number; eauto).
  rewrite outcome_by_block, Hblock. cbn [fst].
  rewrite (evaluate_number _ _ _ _ _ Hlo Hhi Hnum).
  eexists. split; [reflexivity|]. cbn [testCaseStatus].
  rewrite (NumFacts.float_le_val_number _ _ _ Hnan).
  now rewrite NumFacts.num_le_nan_r.
Qed.

(** X9. When the lower bound is not below or equal to the upper bound
    (the range is inverted, or a bound is a NaN), every sum that is a
    number is Failed. *)
Theorem X9_inverted_range_is_failed test_case execution_date runner s
    v s' evs lo hi :
  fallible_block test_case runner s = (Ok v, s', evs) ->
  first_bound "minValueForColSum" (parameterValues test_case) = Ok lo ->
  first_bound "maxValueForColSum" (parameterValues test_case) = Ok hi ->
  is_number v = true ->
  num_le (float_value lo) (float_value hi) = false ->
  exists res,
    outcome (column_values_sum_to_be_between test_case execution_date
               runner s) = Returns res
    /\ testCaseStatus res = Failed.
Proof.
  intros Hblock Hlo Hhi Hnum Hrange.
  rewrite outcome_by_block, Hblock. cbn [fst].
  rewrite (evaluate_number _ _ _ _ _ Hlo Hhi Hnum).
  eexists. split; [reflexivity|]. cbn [testCaseStatus].
  destruct (proj1 (NumFacts.is_number_number v) Hnum) as [a Ha].
  rewrite (NumFacts.float_le_val_number _ _ _ Ha),
          (NumFacts.val_le_float_number _ _ _ Ha).
  destruct (num_le (float_value lo) a) eqn:Hla; [|reflexivity].
  destruct (num_le a (float_value hi)) eqn:Hah; [|reflexivity].
  now rewrite (NumFacts.num_le_trans _ _ _ Hla Hah) in Hrange.
Qed.

(** X10. Wider bounds keep a Success: when a test case gives Success
    for a runner and session, a test case for the same link whose lower
    bound is not above and whose upper bound is not below gives Success
    there too. *)
Theorem X10_wider_bounds_keep_success test_case test_case' execution_date
    runner s v s' evs lo hi lo' hi' :
  entityLink test_case' = entityLink test_case ->
  fallible_block test_case runner s = (Ok v, s', evs) ->
  first_bound "minValueForColSum" (parameterValues test_case) = Ok lo ->
  first_bound "maxValueForColSum" (parameterValues test_case) = Ok hi ->
  first_bound "minValueForColSum" (parameterValues test_case') = Ok lo' ->
  first_bound "maxValueForColSum" (parameterValues test_case') = Ok hi' ->
  num_le (float_value lo') (float_value lo) = true ->
  num_le (float_value hi) (float_value hi') = true ->
  testCaseStatus_of
    (outcome (column_values_sum_to_be_between test_case execution_date
                runner s)) = Some Success ->
  testCaseStatus_of
    (outcome (column_values_sum_to_be_between test_case' execution_date
                runner s)) = Some Success.
Proof.
  intros Hlink Hblock Hlo Hhi Hlo' Hhi' Hlower Hupper.
  rewrite !outcome_by_block.
  rewrite (fallible_block_same_link _ _ _ _ _ _ _ Hlink Hblock), Hblock.
  cbn [fst].
  destruct (is_number v) eqn:Hnum.
  - rewrite (evaluate_number _ _ _ _ _ Hlo Hhi Hnum),
            (evaluate_number _ _ _ _ _ Hlo' Hhi' Hnum).
    cbn [to_outcome testCaseStatus_of testCaseStatus].
    destruct (proj1 (NumFacts.is_number_number v) Hnum) as [a Ha].
    rewrite !(NumFacts.float_le_val_number _ _ _ Ha),
            !(NumFacts.val_le_float_number _ _ _ Ha).
    destruct (num_le (float_value lo) a) eqn:Hla; [|discriminate].
    destruct (num_le a (float_value hi)) eqn:Hah; [|discriminate].
    intros _.
    now rewrite (NumFacts.num_le_trans _ _ _ Hlower Hla),
                (NumFacts.num_le_trans _ _ _ Hah Hupper).
  - destruct (evaluate_not_number test_case execution_date v Hnum)
      as [e ->].
    discriminate.
Qed.

(** X11. For a link of the usual form, a prefix that does not end with
    a colon, then "::", a name and ">", where the name has neither "::"
    nor ">" in it, the column name is that name. *)
Theorem X11_usual_link_names_its_column (prefix name : string) :
  ends_with_colon prefix = false ->
  ~ PyStr.occurs "::" name ->
  PyStr.mem_char ">" name = false ->
  column_name_of (prefix +:+ "::" +:+ name +:+ ">") = name.
Proof.
  intros Hprefix Hname Hgt. unfold column_name_of.
  apply PyStrFacts.no_colons_not_occurs in Hname.
  rewrite (LinkFacts.split_colons_app _ _ Hprefix).
  rewrite (PyStrFacts.split_colons_whole (name +:+ ">"))
    by now rewrite LinkFacts.has_colons_snoc.
  rewrite LinkFacts.last_segment_snoc, LinkFacts.remove_char_app.
  rewrite (PyStrFacts.remove_char_absent _ _ Hgt).
  apply LinkFacts.append_nil_r.
Qed.

(** X12. The sum is read from the last item of the row that is labelled
    with the name of the SUM metric: items before it, of that label or
    another, and items of other labels behind it do not count. *)
Theorem X12_last_label_wins test_case runner s col before v after s' :
  find_column (column_name_of (entityLink test_case)) (table runner)
    = Some col ->
  dispatch_query_select_first runner (SumFn col) s
    = (Ok (Some (before ++ (Metrics_SUM_name, v) :: after)%list), s') ->
  (forall value, (Metrics_SUM_name, value) ∉ after) ->
  fallible_block test_case runner s = (Ok v, s', [EvQuery (SumFn col)]).
Proof.
  intros Hcol Hrow Hno.
  rewrite (fallible_block_found _ _ _ _ Hcol), Hrow.
  cbn [fst snd bind py_dict].
  now rewrite (dict_get_last _ v before after _ Hno eq_refl).
Qed.

(** X13. A sum that is not a number (None: the SUM is NULL or the row
    has no such label; or text) never gives a result: an exception
    leaves the call, and it is TypeError when both bounds are read. *)
Theorem X13_sum_not_a_number_raises test_case execution_date runner s
    v s' evs :
  fallible_block test_case runner s = (Ok v, s', evs) ->
  is_number v = false ->
  (exists e,
     outcome (column_values_sum_to_be_between test_case execution_date
                runner s) = Raises e)
  /\ (forall lo hi,
        first_bound "minValueForColSum" (parameterValues test_case)
          = Ok lo ->
        first_bound "maxValueForColSum" (parameterValues test_case)
          = Ok hi ->
        outcome (column_values_sum_to_be_between test_case execution_date
                   runner s) = Raises TypeError).
Proof.
  intros Hblock Hnum. rewrite outcome_by_block, Hblock. cbn [fst]. split.
  - destruct (evaluate_not_number test_case execution_date v Hnum) as [e ->].
    now exists e.
  - intros lo hi Hlo Hhi. unfold evaluate. rewrite Hlo, Hhi. cbn [bind].
    now rewrite (between_not_number _ _ _ Hnum).
Qed.

End MoreProperties.

(** ** The further properties at concrete inputs *)

(** X2 at a lower bound [abc] that stands before a readable one. *)
Lemma X2_witness :
  outcome (column_values_sum_to_be_between (H := Decimal.env)
             Examples.misread Examples.when
             (Examples.summing (PyInt 150)) tt)
  = Raises ValueError.
Proof.
  apply (@X2_unreadable_lower_bound Decimal.env unit Examples.misread
           Examples.when (Examples.summing (PyInt 150)) tt (PyInt 150) tt
           [EvQuery (SumFn (mkColumn "amount"))]
           [] (mkParam "minValueForColSum" "abc")
           (Examples.bounds "100" "200")).
  - vm_compute. reflexivity.
  - reflexivity.
  - apply no_param_find. reflexivity.
  - reflexivity.
  - reflexivity.
Defined.

(** X3 at the bounds 100 and 200 with a third parameter added. *)
Lemma X3_witness :
  column_values_sum_to_be_between (H := Decimal.env)
    (with_parameters (Examples.amount_between "100" "200")
       (parameterValues (Examples.amount_between "100" "200")
        ++ [mkParam "maxValueForColSum" "0"]))
    Examples.when (Examples.summing (PyInt 150)) tt
  = column_values_sum_to_be_between (H := Decimal.env)
      (Examples.amount_between "100" "200") Examples.when
      (Examples.summing (PyInt 150)) tt.
Proof.
  apply (@X3_parameters_behind_are_ignored Decimal.env unit
           (Examples.amount_between "100" "200") Examples.when
           (Examples.summing (PyInt 150)) tt
           [mkParam "maxValueForColSum" "0"]).
  - apply has_param_find. eexists. reflexivity.
  - apply has_param_find. eexists. reflexivity.
Defined.

(** X5 at the first scenario. *)
Lemma X5_witness :
  timestamp
    (mkResult Examples.when Success
       "Found sum=150 vs. the expected min=100.0, max=200.0."
       [mkResultValue "sum" (Some "150")])
  = Examples.when
  /\ (exists value,
        [mkResultValue "sum" (Some "150")] = [mkResultValue "sum" value]
        /\ (value = None <-> Success = Aborted))
  /\ (Success = Aborted
      <-> exists err,
            block_failure (Examples.amount_between "100" "200")
              (Examples.summing (PyInt 150)) tt err).
Proof.
  apply (@X5_result_shape Decimal.env unit
           (Examples.amount_between "100" "200") Examples.when
           (Examples.summing (PyInt 150)) tt
           (mkResult Examples.when Success
              "Found sum=150 vs. the expected min=100.0, max=200.0."
              [mkResultValue "sum" (Some "150")])).
  vm_compute. reflexivity.
Defined.

(** X8 at a runner that answers a NaN. *)
Lemma X8_witness :
  exists res,
    outcome (column_values_sum_to_be_between (H := Decimal.env)
               (Examples.amount_between "100" "200") Examples.when
               (Examples.summing (PyFloat S754_nan)) tt)
    = Returns res
    /\ testCaseStatus res = Failed.
Proof.
  apply (@X8_nan_sum_is_failed Decimal.env unit
           (Examples.amount_between "100" "200") Examples.when
           (Examples.summing (PyFloat S754_nan)) tt (PyFloat S754_nan) tt
           [EvQuery (SumFn (mkColumn "amount"))]
           (Examples.float_lit "100") (Examples.float_lit "200")).
  - vm_compute. reflexivity.
  - vm_compute. reflexivity.
  - vm_compute. reflexivity.
  - reflexivity.
Defined.

(** X9 at the bounds 200 and 100, with a sum between them. *)
Lemma X9_witness :
  exists res,
    outcome (column_values_sum_to_be_between (H := Decimal.env)
               (Examples.amount_between "200" "100") Examples.when
               (Examples.summing (PyInt 150)) tt)
    = Returns res
    /\ testCaseStatus res = Failed.
Proof.
  apply (@X9_inverted_range_is_failed Decimal.env unit
           (Examples.amount_between "200" "100") Examples.when
           (Examples.summing (PyInt 150)) tt (PyInt 150) tt
           [EvQuery (SumFn (mkColumn "amount"))]
           (Examples.float_lit "200") (Examples.float_lit "100")).
  - vm_compute. reflexivity.
  - vm_compute. reflexivity.
  - vm_compute. reflexivity.
  - reflexivity.
  - vm_compute. reflexivity.
Defined.

(** X10 from the bounds 100 and 200 to the bounds 50.5 and 250. *)
Lemma X10_witness :
  testCaseStatus_of
    (outcome (column_values_sum_to_be_between (H := Decimal.env)
                (Examples.amount_between "50.5" "250") Examples.when
                (Examples.summing (PyInt 150)) tt))
  = Some Success.
Proof.
  apply (@X10_wider_bounds_keep_success Decimal.env unit
           (Examples.amount_between "100" "200")
           (Examples.amount_between "50.5" "250") Examples.when
           (Examples.summing (PyInt 150)) tt (PyInt 150) tt
           [EvQuery (SumFn (mkColumn "amount"))]
           (Examples.float_lit "100") (Examples.float_lit "200")
           (Examples.float_lit "50.5") (Examples.float_lit "250")).
  - reflexivity.
  - vm_compute. reflexivity.
  - vm_compute. reflexivity.
  - vm_compute. reflexivity.
  - vm_compute. reflexivity.
  - vm_compute. reflexivity.
  - vm_compute. reflexivity.
  - vm_compute. reflexivity.
  - vm_compute. reflexivity.
Defined.

(** X11 at the link of the examples. *)
Lemma X11_witness :
  column_name_of ("<#E::table::shop.public.orders" +:+ "::" +:+ "amount"
                  +:+ ">")
  = "amount".
Proof.
  apply (@X11_usual_link_names_its_column
           "<#E::table::shop.public.orders" "amount").
  - reflexivity.
  - apply PyStrFacts.no_colons_not_occurs. reflexivity.
  - reflexivity.
Defined.

(** X12 at a row with two items labelled [sum]: 1, then 150. *)
Lemma X12_witness :
  fallible_block (H := Decimal.env) (Examples.amount_between "100" "200")
    (Examples.relabelled (PyInt 1) (PyInt 150)) tt
  = (Ok (PyInt 150), tt, [EvQuery (SumFn (mkColumn "amount"))]).
Proof.
  apply (@X12_last_label_wins Decimal.env unit
           (Examples.amount_between "100" "200")
           (Examples.relabelled (PyInt 1) (PyInt 150)) tt
           (mkColumn "amount") [("sum", PyInt 1)] (PyInt 150)
           [("count", PyInt 3)] tt).
  - reflexivity.
  - reflexivity.
  - intros value Hin. apply list_elem_of_singleton in Hin. discriminate.
Defined.

(** X13 at a runner that answers [sum = None], the SUM of no rows. *)
Lemma X13_witness :
  (exists e,
     outcome (column_values_sum_to_be_between (H := Decimal.env)
                (Examples.amount_between "100" "200") Examples.when
                (Examples.summing PyNone) tt)
     = Raises e)
  /\ (forall lo hi,
        first_bound (H := Decimal.env) "minValueForColSum"
          (parameterValues (Examples.amount_between "100" "200")) = Ok lo ->
        first_bound (H := Decimal.env) "maxValueForColSum"
          (parameterValues (Examples.amount_between "100" "200")) = Ok hi ->
        outcome (column_values_sum_to_be_between (H := Decimal.env)
                   (Examples.amount_between "100" "200") Examples.when
                   (Examples.summing PyNone) tt)
        = Raises TypeError).
Proof.
  apply (@X13_sum_not_a_number_raises Decimal.env unit
           (Examples.amount_between "100" "200") Examples.when
           (Examples.summing PyNone) tt PyNone tt
           [EvQuery (SumFn (mkColumn "amount"))]).
  - vm_compute. reflexivity.
  - reflexivity.
Defined.
